(** * VibeCoders Ideas API: a shallow embedding of the two service variants

    The repository holds two FastAPI services over the same MongoDB
    collections ("idea" and "comment"):
    - [src/main.py]          (module [Root] below), and
    - [src/backend/main.py]  (module [Backend] below).

    Documents are records, collections are lists in natural (insertion)
    order, every MongoDB call of a handler is one atomic command of a small
    command language, and a handler is a program over these commands.  The
    sequential semantics [run] is used for the functional properties, the
    interleaving semantics [run_sched] for the concurrent upvotes. *)

From Stdlib Require Import ZArith Ascii String List Sorted Permutation Lia.
From stdpp Require Import base option list strings pretty sorting gmap fin_maps.

Open Scope string_scope.
Open Scope list_scope.
Open Scope Z_scope.

(** ** Strings: [str.strip] and [len] *)

(** Python's [str.isspace] on one character.  A character of [string] is
    read as the code point of the same number (0..255); in that range the
    whitespace characters are TAB..CR, FS..US, SPACE, NEL and NBSP. *)
Definition is_space (c : ascii) : bool :=
  let n := nat_of_ascii c in
  ((9 <=? n) && (n <=? 13) || (28 <=? n) && (n <=? 32)
   || (n =? 133) || (n =? 160))%nat.

Definition all_space (s : string) : bool :=
  forallb is_space (list_ascii_of_string s).

(** [s.lstrip()] *)
Fixpoint lstrip (s : string) : string :=
  match s with
  | EmptyString => EmptyString
  | String c r => if is_space c then lstrip r else s
  end.

(** [s.rstrip()] *)
Fixpoint rstrip (s : string) : string :=
  match s with
  | EmptyString => EmptyString
  | String c r =>
      match rstrip r with
      | EmptyString => if is_space c then EmptyString else String c EmptyString
      | r' => String c r'
      end
  end.

(** [s.strip()] *)
Definition strip (s : string) : string := rstrip (lstrip s).

(** [len(s)] *)
Definition len (s : string) : Z := Z.of_nat (String.length s).

(** Truthiness of a string ([if s]): the empty string is false. *)
Definition truthy (s : string) : bool :=
  match s with EmptyString => false | _ => true end.

Definition first_char (s : string) : option ascii :=
  match s with EmptyString => None | String c _ => Some c end.

Fixpoint last_char (s : string) : option ascii :=
  match s with
  | EmptyString => None
  | String c EmptyString => Some c
  | String _ r => last_char r
  end.

(** A string with no whitespace at either end. *)
Definition trimmed (s : string) : Prop :=
  (forall c, first_char s = Some c -> is_space c = false) /\
  (forall c, last_char s = Some c -> is_space c = false).

(** ** [bson.ObjectId]

    The identifiers that the driver draws and the database stores are
    twelve bytes; [str(oid)] is the lower-case hexadecimal digits of the
    bytes, and bytes are represented here by these digits.

    [ObjectId(s)] takes a string of 24 characters that [bytes.fromhex]
    reads and raises [InvalidId] for any other.  [bytes.fromhex] (of
    CPython 3.7 and later) reads hexadecimal digits of either case, two to
    a byte, and skips ASCII whitespace before a byte: 24 hexadecimal digits
    give twelve bytes, 24 characters with blanks among them give fewer, and
    [ObjectId] keeps what it is given. *)

Definition ascii_between (lo hi c : ascii) : bool :=
  (nat_of_ascii lo <=? nat_of_ascii c)%nat && (nat_of_ascii c <=? nat_of_ascii hi)%nat.

Definition is_hex_lower (c : ascii) : bool :=
  ascii_between "0" "9" c || ascii_between "a" "f" c.

(** Upper-case hexadecimal digits fold to lower case; all else is kept. *)
Definition hex_fold (c : ascii) : ascii :=
  if ascii_between "A" "F" c then ascii_of_nat (nat_of_ascii c + 32) else c.

Definition canonical (s : string) : bool :=
  (String.length s =? 24)%nat && forallb is_hex_lower (list_ascii_of_string s).

(** An identifier of twelve bytes. *)
Definition ObjectId : Type := { s : string | canonical s = true }.

(** [str(oid)] *)
Definition oid_str (o : ObjectId) : string := proj1_sig o.

(** A hexadecimal digit of either case. *)
Definition is_hex (c : ascii) : bool := is_hex_lower (hex_fold c).

(** The whitespace that [bytes.fromhex] skips: TAB..CR and SPACE. *)
Definition is_ascii_space (c : ascii) : bool :=
  let n := nat_of_ascii c in
  ((9 <=? n) && (n <=? 13) || (n =? 32))%nat.

(** [bytes.fromhex(s)], the bytes given by their lower-case digits;
    [None] stands for its [ValueError]: a character that is neither a
    digit nor whitespace, whitespace inside a byte, or a digit left
    over. *)
Fixpoint fromhex (s : string) : option string :=
  match s with
  | EmptyString => Some EmptyString
  | String c r =>
      if is_ascii_space c then fromhex r
      else
        match r with
        | EmptyString => None
        | String c' r' =>
            if is_hex c && is_hex c'
            then String (hex_fold c) <$> (String (hex_fold c') <$> fromhex r')
            else None
        end
  end.

(** The value of [ObjectId(s)]: an identifier of twelve bytes or, for a
    string with blanks, the fewer bytes read. *)
Inductive Oid :=
| Oid12 (o : ObjectId)
| OidShort (hex : string).

Coercion Oid12 : ObjectId >-> Oid.

Definition Oid_of_hex (h : string) : Oid :=
  match canonical h as b return canonical h = b -> Oid with
  | true => fun H => Oid12 (exist _ h H)
  | false => fun _ => OidShort h
  end eq_refl.

(** [ObjectId(s)]: [None] stands for the [InvalidId] exception. *)
Definition ObjectId_new (s : string) : option Oid :=
  if (String.length s =? 24)%nat then Oid_of_hex <$> fromhex s else None.

#[global] Instance ObjectId_eq_dec : EqDecision ObjectId := _.
#[global] Instance ObjectId_countable : Countable ObjectId := _.

#[global] Instance Oid_eq_dec : EqDecision Oid.
Proof. solve_decision. Defined.

#[global] Instance Oid_countable : Countable Oid.
Proof.
  refine (inj_countable'
            (fun q => match q with Oid12 o => inl o | OidShort h => inr h end)
            (fun x => match x with inl o => Oid12 o | inr h => OidShort h end) _).
  by intros [].
Defined.

(** ** Documents and collections *)

(** Times are UTC instants in milliseconds, the precision BSON keeps. *)
Definition timedelta_days (d : Z) : Z := d * 86400000.

(** A document of the "idea" collection. *)
Record IdeaDoc := mkIdeaDoc {
  i_id : ObjectId;
  i_title : string;
  i_description : option string;
  i_votes : Z;
  i_created_at : Z;
  i_updated_at : Z }.

(** A document of the "comment" collection. *)
Record CommentDoc := mkCommentDoc {
  c_id : ObjectId;
  c_idea_id : string;
  c_author : option string;
  c_content : string;
  c_created_at : Z;
  c_updated_at : Z }.

(** The database: both collections in natural order. *)
Record Store := mkStore {
  ideas : list IdeaDoc;
  comments : list CommentDoc }.

(** The JSON object returned for an idea; [j_comments_count = None] means
    that the object has no "comments_count" key. *)
Record IdeaJson := mkIdeaJson {
  j_id : string;
  j_title : string;
  j_description : option string;
  j_votes : Z;
  j_created_at : Z;
  j_updated_at : Z;
  j_comments_count : option Z }.

(** The JSON object returned for a comment. *)
Record CommentJson := mkCommentJson {
  k_id : string;
  k_idea_id : string;
  k_author : option string;
  k_content : string;
  k_created_at : Z;
  k_updated_at : Z }.

(** What a request ends in. *)
Inductive outcome (A : Type) : Type :=
| Ok (a : A)
| HTTPException (status_code : Z) (detail : string)
| RequestValidationError (fields : list string)
| Unhandled (exception : string) (message : string).
Arguments Ok {A} a.
Arguments HTTPException {A} status_code detail.
Arguments RequestValidationError {A} fields.
Arguments Unhandled {A} exception message.

(** The HTTP status FastAPI answers with: 422 for a request body that fails
    its pydantic model, 500 for an exception no handler catches. *)
Definition http_status {A} (r : outcome A) : Z :=
  match r with
  | Ok _ => 200
  | HTTPException c _ => c
  | RequestValidationError _ => 422
  | Unhandled _ _ => 500
  end.

Definition is_ok {A} (r : outcome A) : bool :=
  match r with Ok _ => true | _ => false end.

Definition is_validation_error {A} (r : outcome A) : bool :=
  match r with RequestValidationError _ => true | _ => false end.

(** ** Sorting *)

(** A stable ascending sort by key that, like [list.sort], only uses [<]:
    an element is placed before the first element that is not smaller. *)
Section Sort.
Context {A K : Type} (ltb : K -> K -> bool) (key : A -> K).

Fixpoint insert_sorted (x : A) (l : list A) : list A :=
  match l with
  | [] => [x]
  | y :: l' =>
      if ltb (key y) (key x) then y :: insert_sorted x l' else x :: l
  end.

Fixpoint sort_asc (l : list A) : list A :=
  match l with
  | [] => []
  | x :: l' => insert_sorted x (sort_asc l')
  end.

(** [l.sort(key=key, reverse=True)]: CPython reverses the list, sorts it
    stably in ascending order and reverses it again, which keeps equal
    elements in their original order. *)
Definition sort_reverse (l : list A) : list A :=
  rev (sort_asc (rev l)).

(** [x] may stand before [y] in ascending order of the key. *)
Definition asc (x y : A) : Prop := ltb (key y) (key x) = false.
(** [x] may stand before [y] in descending order of the key. *)
Definition desc (x y : A) : Prop := ltb (key x) (key y) = false.
End Sort.

(** [<] on Python tuples of two integers (lexicographic). *)
Definition tuple_ltb (a b : Z * Z) : bool :=
  (a.1 <? b.1) || ((a.1 =? b.1) && (a.2 <? b.2)).

(** ** MongoDB commands *)

Definition oid_eqb (a b : ObjectId) : bool := String.eqb (oid_str a) (oid_str b).

(** [$inc votes 1, $set updated_at now] on one document. *)
Definition inc_votes (now : Z) (d : IdeaDoc) : IdeaDoc :=
  mkIdeaDoc (i_id d) (i_title d) (i_description d) (i_votes d + 1)
            (i_created_at d) now.

(** Update the first document with the given [_id]; return it as updated. *)
Fixpoint find_one_and_update (oid : ObjectId) (now : Z) (l : list IdeaDoc)
  : option IdeaDoc * list IdeaDoc :=
  match l with
  | [] => (None, [])
  | d :: l' =>
      if oid_eqb (i_id d) oid then (Some (inc_votes now d), inc_votes now d :: l')
      else let '(r, l'') := find_one_and_update oid now l' in (r, d :: l'')
  end.

Definition in_range (since : option Z) (d : IdeaDoc) : bool :=
  match since with
  | None => true
  | Some t => t <=? i_created_at d
  end.

Definition string_in (s : string) (l : list string) : bool :=
  existsb (String.eqb s) l.

(** The pipeline [$match idea_id $in ids; $group by idea_id, count $sum 1]:
    the groups, each with its number of comments. *)
Definition group_counts (ids : list string) (cs : list CommentDoc) : gmap string Z :=
  foldl (fun m c =>
           if string_in (c_idea_id c) ids
           then <[c_idea_id c := default 0 (m !! c_idea_id c) + 1]> m
           else m) ∅ cs.

Definition comments_of (idea_id : string) (cs : list CommentDoc) : list CommentDoc :=
  List.filter (fun c => String.eqb (c_idea_id c) idea_id) cs.

(** [count_documents({"idea_id": idea_id})] *)
Definition comment_count (idea_id : string) (cs : list CommentDoc) : Z :=
  Z.of_nat (length (comments_of idea_id cs)).

(** One call of the driver; each is atomic in the database. *)
Inductive cmd : Type -> Type :=
| IdeaFind (since : option Z) : cmd (list IdeaDoc)
| IdeaFindOne (oid : Oid) : cmd (option IdeaDoc)
| IdeaInsertOne (d : IdeaDoc) : cmd bool
| IdeaFindOneAndUpdate (oid : Oid) (now : Z) : cmd (option IdeaDoc)
| CommentAggregate (ids : list string) : cmd (list (string * Z))
| CommentCountDocuments (idea_id : string) : cmd Z
| CommentFindSorted (idea_id : string) : cmd (list CommentDoc)
| CommentFindOne (oid : Oid) : cmd (option CommentDoc)
| CommentInsertOne (d : CommentDoc) : cmd bool.

(** The effect of a command on the database.  [insert_one] returns [false]
    for the [DuplicateKeyError] of the unique index on [_id].  [find] gives
    the documents in natural order; [sort("created_at", -1)] is taken
    stable, MongoDB leaving the order of equal keys open, and so is the
    order of the groups of an aggregation, taken as the map lists them.
    Every [_id] of the database has twelve bytes, so that a query by an
    ObjectId of fewer bytes finds no document. *)
Definition exec {X} (c : cmd X) (st : Store) : X * Store :=
  match c in cmd X return X * Store with
  | IdeaFind since => (List.filter (in_range since) (ideas st), st)
  | IdeaFindOne (Oid12 oid) =>
      (List.find (fun d => oid_eqb (i_id d) oid) (ideas st), st)
  | IdeaFindOne (OidShort _) => (None, st)
  | IdeaInsertOne d =>
      if existsb (fun d' => oid_eqb (i_id d') (i_id d)) (ideas st) then (false, st)
      else (true, mkStore (ideas st ++ [d]) (comments st))
  | IdeaFindOneAndUpdate (Oid12 oid) now =>
      let '(r, l) := find_one_and_update oid now (ideas st) in
      (r, mkStore l (comments st))
  | IdeaFindOneAndUpdate (OidShort _) now => (None, st)
  | CommentAggregate ids => (map_to_list (group_counts ids (comments st)), st)
  | CommentCountDocuments s => (comment_count s (comments st), st)
  | CommentFindSorted s =>
      (sort_reverse Z.ltb c_created_at (comments_of s (comments st)), st)
  | CommentFindOne (Oid12 oid) =>
      (List.find (fun d => oid_eqb (c_id d) oid) (comments st), st)
  | CommentFindOne (OidShort _) => (None, st)
  | CommentInsertOne d =>
      if existsb (fun d' => oid_eqb (c_id d') (c_id d)) (comments st) then (false, st)
      else (true, mkStore (ideas st) (comments st ++ [d]))
  end.

(** A handler: a program over database commands. *)
Inductive prog (A : Type) : Type :=
| Ret (a : A)
| Call {X : Type} (c : cmd X) (k : X -> prog A).
Arguments Ret {A} a.
Arguments Call {A X} c k.

Notation "'let!' x ':=' c 'in' k" := (Call c (fun x => k))
  (at level 10, x name, c at level 200, k at level 200, only parsing).

(** Running a handler alone. *)
Fixpoint run {A} (p : prog A) (st : Store) : A * Store :=
  match p with
  | Ret a => (a, st)
  | Call c k => let '(x, st') := exec c st in run (k x) st'
  end.

(** One step of a request: its next command, executed by the database as
    a whole.  A request that has returned stays as it is. *)
Definition step {A} (p : prog A) (st : Store) : prog A * Store :=
  match p with
  | Ret _ => (p, st)
  | Call c k => let '(x, st') := exec c st in (k x, st')
  end.

(** Running several requests at once: the schedule names, step by step, the
    request that takes its next step.  A number that names no request lets
    the step pass. *)
Fixpoint run_sched {A} (sched : list nat) (ps : list (prog A)) (st : Store)
  : list (prog A) * Store :=
  match sched with
  | [] => (ps, st)
  | i :: sched' =>
      match ps !! i with
      | Some p =>
          let '(p', st') := step p st in
          run_sched sched' (<[i := p']> ps) st'
      | None => run_sched sched' ps st
      end
  end.

Definition returned {A} (p : prog A) : option A :=
  match p with Ret a => Some a | Call _ _ => None end.

(** ** [src/main.py] *)

Module Root.

(** [serialize_doc]: [_id] becomes the string [id]; the datetimes become
    their ISO-8601 strings, which are kept here as the instants they
    denote. *)
Definition serialize_doc (d : IdeaDoc) : IdeaJson :=
  mkIdeaJson (oid_str (i_id d)) (i_title d) (i_description d) (i_votes d)
             (i_created_at d) (i_updated_at d) None.

Definition serialize_comment (c : CommentDoc) : CommentJson :=
  mkCommentJson (oid_str (c_id c)) (c_idea_id c) (c_author c) (c_content c)
                (c_created_at c) (c_updated_at c).

(** [CreateIdeaRequest] *)
Record CreateIdeaRequest := mkCreateIdeaRequest {
  title : string;
  description : option string }.

(** [CreateCommentRequest] *)
Record CreateCommentRequest := mkCreateCommentRequest {
  author : option string;
  content : string }.

(** Modelled from the spec: [database.create_document] of this service is
    not among the sources.  Following the spec's create ("both timestamps
    to the current time, persists") it stores the fields of the model with
    [created_at] and [updated_at] set to now and returns the string of the
    assigned identifier; [new_id] is the identifier the driver draws. *)
Definition create_document_idea (new_id : ObjectId) (now : Z)
    (title : string) (description : option string) (votes : Z)
    (k : string -> prog (outcome IdeaJson)) : prog (outcome IdeaJson) :=
  let! inserted := IdeaInsertOne (mkIdeaDoc new_id title description votes now now) in
  if inserted : bool then k (oid_str new_id)
  else Ret (Unhandled "DuplicateKeyError" "idea").

(** Modelled from the spec: the same helper on the "comment" collection. *)
Definition create_document_comment (new_id : ObjectId) (now : Z)
    (idea_id : string) (author : option string) (content : string)
    (k : string -> prog (outcome CommentJson)) : prog (outcome CommentJson) :=
  let! inserted := CommentInsertOne (mkCommentDoc new_id idea_id author content now now) in
  if inserted : bool then k (oid_str new_id)
  else Ret (Unhandled "DuplicateKeyError" "comment").

(** [POST /ideas] *)
Definition create_idea (payload : CreateIdeaRequest) (now : Z) (new_id : ObjectId)
  : prog (outcome IdeaJson) :=
  create_document_idea new_id now (title payload) (description payload) 0
    (fun new_id_str =>
       match ObjectId_new new_id_str with
       | None => Ret (Unhandled "InvalidId" new_id_str)
       | Some oid =>
           let! doc := IdeaFindOne oid in
           match doc with
           | Some d => Ret (Ok (serialize_doc d))
           | None => Ret (Unhandled "TypeError" "serialize_doc")
           end
       end).

(** The [$gte] bound of the time filter. *)
Definition since (range : string) (now : Z) : option Z :=
  if String.eqb range "week" then Some (now - timedelta_days 7)
  else if String.eqb range "month" then Some (now - timedelta_days 30)
  else None.

(** The dict comprehension over the rows of the aggregation. *)
Definition counts_of_rows (rows : list (string * Z)) : gmap string Z :=
  foldl (fun m row => <[row.1 := row.2]> m) ∅ rows.

Definition enrich (counts : gmap string Z) (i : IdeaDoc) : IdeaJson :=
  let s := serialize_doc i in
  mkIdeaJson (j_id s) (j_title s) (j_description s) (j_votes s)
             (j_created_at s) (j_updated_at s)
             (Some (default 0 (counts !! j_id s))).

Definition sort_enriched (sort : string) (enriched : list IdeaJson) : list IdeaJson :=
  if String.eqb sort "comments"
  then sort_reverse Z.ltb (fun x => default 0 (j_comments_count x)) enriched
  else sort_reverse Z.ltb j_votes enriched.

(** [GET /ideas] *)
Definition list_ideas (range sort : string) (now : Z)
  : prog (outcome (list IdeaJson)) :=
  let! ideas := IdeaFind (since range now) in
  let idea_ids := map i_id ideas in
  let finish (counts : gmap string Z) :=
    Ret (Ok (sort_enriched sort (map (enrich counts) ideas))) in
  match idea_ids with
  | [] => finish ∅
  | _ =>
      let! rows := CommentAggregate (map oid_str idea_ids) in
      finish (counts_of_rows rows)
  end.

(** [POST /ideas/{idea_id}/upvote] *)
Definition upvote_idea (idea_id : string) (now : Z) : prog (outcome IdeaJson) :=
  match ObjectId_new idea_id with
  | None => Ret (HTTPException 400 "Invalid idea id")
  | Some oid =>
      let! result := IdeaFindOneAndUpdate oid now in
      match result with
      | None => Ret (HTTPException 404 "Idea not found")
      | Some d => Ret (Ok (serialize_doc d))
      end
  end.


(** [POST /ideas/{idea_id}/comments] *)
Definition add_comment (idea_id : string) (payload : CreateCommentRequest)
    (now : Z) (new_id : ObjectId) : prog (outcome CommentJson) :=
  match ObjectId_new idea_id with
  | None => Ret (HTTPException 400 "Invalid idea id")
  | Some oid =>
      let! idea := IdeaFindOne oid in
      match idea with
      | None => Ret (HTTPException 404 "Idea not found")
      | Some _ =>
          create_document_comment new_id now idea_id (author payload) (content payload)
            (fun new_id_str =>
               match ObjectId_new new_id_str with
               | None => Ret (Unhandled "InvalidId" new_id_str)
               | Some cid =>
                   let! doc := CommentFindOne cid in
                   match doc with
                   | Some c => Ret (Ok (serialize_comment c))
                   | None => Ret (Unhandled "TypeError" "serialize_doc")
                   end
               end)
      end
  end.

End Root.

(** ** [src/backend/main.py] *)

Module Backend.

(** [serialize_id] followed by the response model [IdeaOut], whose
    [comments_count] the handler sets. *)
Definition serialize_id (d : IdeaDoc) (comments_count : Z) : IdeaJson :=
  mkIdeaJson (oid_str (i_id d)) (i_title d) (i_description d) (i_votes d)
             (i_created_at d) (i_updated_at d) (Some comments_count).

(** [serialize_id] followed by the response model [CommentOut]. *)
Definition serialize_comment (c : CommentDoc) : CommentJson :=
  mkCommentJson (oid_str (c_id c)) (c_idea_id c) (c_author c) (c_content c)
                (c_created_at c) (c_updated_at c).

(** [IdeaCreate] *)
Record IdeaCreate := mkIdeaCreate {
  title : string;
  description : option string }.

(** [CommentCreate] *)
Record CommentCreate := mkCommentCreate {
  author : option string;
  content : string }.

Definition length_between (lo hi : Z) (s : string) : bool :=
  (lo <=? len s) && (len s <=? hi).

Definition opt_max_length (hi : Z) (o : option string) : bool :=
  match o with None => true | Some s => len s <=? hi end.

(** The fields of a request body that fail the constraints of
    [IdeaCreate]: [title] of 1 to 200 characters, [description] of at most
    2000. *)
Definition IdeaCreate_errors (p : IdeaCreate) : list string :=
  (if length_between 1 200 (title p) then [] else ["title"]) ++
  (if opt_max_length 2000 (description p) then [] else ["description"]).

(** The same for [CommentCreate]: [author] of at most 100 characters,
    [content] of 1 to 2000. *)
Definition CommentCreate_errors (p : CommentCreate) : list string :=
  (if opt_max_length 100 (author p) then [] else ["author"]) ++
  (if length_between 1 2000 (content p) then [] else ["content"]).

(** [x.strip() if x else None] *)
Definition strip_opt (o : option string) : option string :=
  match o with
  | Some s => if truthy s then Some (strip s) else None
  | None => None
  end.

(** The body of [create_idea], entered with a validated payload. *)
Definition create_idea (payload : IdeaCreate) (now : Z) (new_id : ObjectId)
  : prog (outcome IdeaJson) :=
  let doc := mkIdeaDoc new_id (strip (title payload))
                       (strip_opt (description payload)) 0 now now in
  let! inserted := IdeaInsertOne doc in
  if inserted : bool then
    let! saved := IdeaFindOne new_id in
    match saved with
    | Some d => Ret (Ok (serialize_id d 0))
    | None => Ret (Unhandled "TypeError" "serialize_id")
    end
  else Ret (Unhandled "DuplicateKeyError" "idea").

(** [POST /ideas]: the body is validated against [IdeaCreate] before the
    handler is entered. *)
Definition create_idea_request (payload : IdeaCreate) (now : Z) (new_id : ObjectId)
  : prog (outcome IdeaJson) :=
  match IdeaCreate_errors payload with
  | [] => create_idea payload now new_id
  | errs => Ret (RequestValidationError errs)
  end.

(** [range] and [sort] are [Literal] types: other values never reach the
    handler. *)
Inductive Range := all | month | week.
Inductive SortKey := votes | comments.

Definition since (range : Range) (now : Z) : option Z :=
  match range with
  | all => None
  | month => Some (now - timedelta_days 30)
  | week => Some (now - timedelta_days 7)
  end.

(** [{iid: 0 for iid in idea_ids}] *)
Definition zero_counts (idea_ids : list ObjectId) : gmap Oid Z :=
  foldl (fun m iid => <[Oid12 iid := 0]> m) ∅ idea_ids.

(** The loop over the rows of the aggregation; a row whose key is no
    ObjectId is skipped. *)
Definition add_rows (counts : gmap Oid Z) (rows : list (string * Z))
  : gmap Oid Z :=
  foldl (fun m row =>
           match ObjectId_new row.1 with
           | Some oid => <[oid := row.2]> m
           | None => m
           end) counts rows.

Definition enrich (counts : gmap Oid Z) (i : IdeaDoc) : IdeaJson :=
  serialize_id i (default 0 (counts !! Oid12 (i_id i))).

Definition sort_items (sort : SortKey) (items : list IdeaJson) : list IdeaJson :=
  match sort with
  | votes =>
      sort_reverse tuple_ltb (fun x => (j_votes x, j_created_at x)) items
  | comments =>
      sort_reverse tuple_ltb
        (fun x => (default 0 (j_comments_count x), j_created_at x)) items
  end.

(** [GET /ideas] *)
Definition list_ideas (range : Range) (sort : SortKey) (now : Z)
  : prog (outcome (list IdeaJson)) :=
  let! ideas := IdeaFind (since range now) in
  let idea_ids := map i_id ideas in
  let counts := zero_counts idea_ids in
  let finish (counts : gmap Oid Z) :=
    Ret (Ok (sort_items sort (map (enrich counts) ideas))) in
  match idea_ids with
  | [] => finish counts
  | _ =>
      let! rows := CommentAggregate (map oid_str idea_ids) in
      finish (add_rows counts rows)
  end.

(** [PyObjectId.validate] on a string: [ValueError] for one that
    [ObjectId] refuses. *)
Definition PyObjectId_validate {A} (v : string) (k : Oid -> prog (outcome A))
  : prog (outcome A) :=
  match ObjectId_new v with
  | Some oid => k oid
  | None => Ret (Unhandled "ValueError" "Invalid ObjectId")
  end.

(** [POST /ideas/{idea_id}/upvote] *)
Definition upvote_idea (idea_id : string) (now : Z) : prog (outcome IdeaJson) :=
  PyObjectId_validate idea_id (fun oid =>
    let! res := IdeaFindOneAndUpdate oid now in
    match res with
    | None => Ret (HTTPException 404 "Idea not found")
    | Some d =>
        let! count := CommentCountDocuments idea_id in
        Ret (Ok (serialize_id d count))
    end).

(** [GET /ideas/{idea_id}/comments] *)
Definition list_comments (idea_id : string) : prog (outcome (list CommentJson)) :=
  let! docs := CommentFindSorted idea_id in
  Ret (Ok (map serialize_comment docs)).

(** The body of [add_comment], entered with a validated payload. *)
Definition add_comment (idea_id : string) (payload : CommentCreate)
    (now : Z) (new_id : ObjectId) : prog (outcome CommentJson) :=
  PyObjectId_validate idea_id (fun oid =>
    let! idea := IdeaFindOne oid in
    match idea with
    | None => Ret (HTTPException 404 "Idea not found")
    | Some _ =>
        let doc := mkCommentDoc new_id idea_id (strip_opt (author payload))
                                (strip (content payload)) now now in
        let! inserted := CommentInsertOne doc in
        if inserted : bool then
          let! saved := CommentFindOne new_id in
          match saved with
          | Some c => Ret (Ok (serialize_comment c))
          | None => Ret (Unhandled "TypeError" "serialize_id")
          end
        else Ret (Unhandled "DuplicateKeyError" "comment")
    end).

(** [POST /ideas/{idea_id}/comments]: the body is validated against
    [CommentCreate] before the handler is entered. *)
Definition add_comment_request (idea_id : string) (payload : CommentCreate)
    (now : Z) (new_id : ObjectId) : prog (outcome CommentJson) :=
  match CommentCreate_errors payload with
  | [] => add_comment idea_id payload now new_id
  | errs => Ret (RequestValidationError errs)
  end.

End Backend.

(** ** [src/backend/database.py] *)

Module Database.

(** The values of a document's fields. *)
Inductive Value :=
| VNone
| VStr (s : string)
| VInt (n : Z)
| VDate (t : Z)
| VOid (o : ObjectId).

#[global] Instance Value_eq_dec : EqDecision Value.
Proof. solve_decision. Defined.

(** A document is a dict; the database holds its collections by name, each
    in natural order, and a collection not yet written to is empty. *)
Abbreviation Doc := (gmap string Value).
Abbreviation Db := (gmap string (list Doc)).

Definition collection (db : Db) (collection_name : string) : list Doc :=
  default [] (db !! collection_name).

Section Str.
(** Python's [str] of a datetime, which the module does not define. *)
Context (str_datetime : Z -> string).

(** [str(v)] *)
Definition py_str (v : Value) : string :=
  match v with
  | VNone => "None"
  | VStr s => s
  | VInt n => pretty n
  | VDate t => str_datetime t
  | VOid o => oid_str o
  end.

(** The body of [_serialize] on a dict: [d["id"] = str(d.pop("_id"))]
    when there is an ["_id"]. *)
Definition serialize_dict (d : Doc) : Doc :=
  match d !! "_id" with
  | Some v => <["id" := VStr (py_str v)]> (delete "_id" d)
  | None => d
  end.

(** [_serialize]: [None] stays [None]. *)
Definition _serialize (doc : option Doc) : option Doc :=
  serialize_dict <$> doc.

(** A field of a query against a document: equal values, a null in the
    query also standing for a field that is missing. *)
Definition field_matches (d : Doc) (kv : string * Value) : bool :=
  match d !! kv.1 with
  | Some v => bool_decide (v = kv.2)
  | None => bool_decide (kv.2 = VNone)
  end.

(** A query of plain values against a document. *)
Definition doc_matches (query : Doc) (d : Doc) : bool :=
  forallb (field_matches d) (map_to_list query).

(** [insert_one]: the driver gives a document without ["_id"] a new
    ObjectId; the unique index refuses an ["_id"] that is taken ([None]). *)
Definition insert_one (col : list Doc) (payload : Doc) (new_id : ObjectId)
  : option (Value * list Doc) :=
  let inserted_id := default (VOid new_id) (payload !! "_id") in
  if existsb (doc_matches {["_id" := inserted_id]}) col then None
  else Some (inserted_id, col ++ [<["_id" := inserted_id]> payload]).

(** [create_document] *)
Definition create_document (collection_name : string) (data : Doc)
    (now : Z) (new_id : ObjectId) (db : Db) : outcome (option Doc) * Db :=
  let payload := <["updated_at" := VDate now]> (<["created_at" := VDate now]> data) in
  match insert_one (collection db collection_name) payload new_id with
  | None => (Unhandled "DuplicateKeyError" collection_name, db)
  | Some (inserted_id, col) =>
      let db' := <[collection_name := col]> db in
      let saved := List.find (doc_matches {["_id" := inserted_id]})
                             (collection db' collection_name) in
      (Ok (_serialize saved), db')
  end.

(** [get_documents]: [filter_dict or {}], then [limit] when it is given
    and not 0.  The limit is a natural number: a negative one, which the
    driver turns into a single batch, is left out. *)
Definition get_documents (collection_name : string) (filter_dict : option Doc)
    (limit : option N) (db : Db) : list Doc :=
  let cursor := List.filter (doc_matches (default ∅ filter_dict))
                            (collection db collection_name) in
  let cursor := match limit with
                | Some n => if (n =? 0)%N then cursor else take (N.to_nat n) cursor
                | None => cursor
                end in
  map serialize_dict cursor.
End Str.

End Database.

(** ** [src/schemas.py] and [src/backend/schemas.py] *)

Module RootSchemas.

(** [Idea]: [title] and [description] are unconstrained, [votes] has
    [ge=0].  The fields that fail. *)
Definition Idea_errors (title : string) (description : option string) (votes : Z)
  : list string :=
  if 0 <=? votes then [] else ["votes"].

(** [Comment]: no field is constrained. *)
Definition Comment_errors (idea_id : string) (author : option string)
    (content : string) : list string := [].

End RootSchemas.

Module BackendSchemas.

(** [Idea]: [title] of 1 to 200 characters, [description] of at most 2000;
    [votes] and the two datetimes are unconstrained.  The fields of a stored
    document that fail. *)
Definition Idea_errors (d : IdeaDoc) : list string :=
  (if Backend.length_between 1 200 (i_title d) then [] else ["title"]) ++
  (if Backend.opt_max_length 2000 (i_description d) then [] else ["description"]).

(** [Comment]: [author] of at most 100 characters, [content] of 1 to 2000. *)
Definition Comment_errors (c : CommentDoc) : list string :=
  (if Backend.opt_max_length 100 (c_author c) then [] else ["author"]) ++
  (if Backend.length_between 1 2000 (c_content c) then [] else ["content"]).

End BackendSchemas.

(** ** Vocabulary of the properties *)

(** An idea as [list_ideas] is to return it: the document with, as
    [comments_count], the number of comments that refer to its identifier. *)
Definition idea_json (cs : list CommentDoc) (d : IdeaDoc) : IdeaJson :=
  mkIdeaJson (oid_str (i_id d)) (i_title d) (i_description d) (i_votes d)
             (i_created_at d) (i_updated_at d)
             (Some (comment_count (oid_str (i_id d)) cs)).

(** The first document of the collection with the given identifier. *)
Definition find_idea (oid : ObjectId) (st : Store) : option IdeaDoc :=
  List.find (fun d => oid_eqb (i_id d) oid) (ideas st).

(** [x] may stand before [y] in a listing by [primary], descending, with
    ties on [primary] broken by [created_at], descending. *)
Definition ordered_by (primary : IdeaJson -> Z) (x y : IdeaJson) : Prop :=
  primary y < primary x \/
  (primary x = primary y /\ j_created_at y <= j_created_at x).

(** The primary sort field of each sort key. *)
Definition primary_field (sort : Backend.SortKey) (x : IdeaJson) : Z :=
  match sort with
  | Backend.votes => j_votes x
  | Backend.comments => default 0 (j_comments_count x)
  end.

(** The idea was created at [t] or later. *)
Definition created_since (t : Z) (d : IdeaDoc) : bool := t <=? i_created_at d.

(** [l] holds exactly the ideas of the database that [keep] selects, each
    once and with its comment count, in some order. *)
Definition listing (st : Store) (keep : IdeaDoc -> bool) (l : list IdeaJson) : Prop :=
  Permutation l (map (idea_json (comments st)) (List.filter keep (ideas st))).




(** The string names an idea of the database. *)
Definition refers_to_idea (st : Store) (idea_id : string) : Prop :=
  exists oid : ObjectId,
    ObjectId_new idea_id = Some (Oid12 oid) /\ is_Some (find_idea oid st).

(** Every comment belongs to an idea of the database: comments are only
    added to existing ideas and ideas are never deleted. *)
Definition comments_refer_to_ideas (st : Store) : Prop :=
  Forall (fun c => refers_to_idea st (c_idea_id c)) (comments st).


(** The vote count of the idea with the given identifier. *)
Definition votes_of (oid : ObjectId) (st : Store) : option Z :=
  i_votes <$> find_idea oid st.

(** Every request of the pool has returned. *)
Definition all_returned {A} (ps : list (prog A)) : Prop :=
  Forall (fun p => is_Some (returned p)) ps.

(** Every request of the pool has returned a record. *)
Definition all_ok {A} (ps : list (prog (outcome A))) : Prop :=
  Forall (fun p => exists a, p = Ret (Ok a)) ps.

(** A command that reads only. *)
Definition cmd_readonly {X} (c : cmd X) : Prop :=
  forall st, (exec c st).2 = st.

(** What is left of a request that only reads from now on and then returns
    a record. *)
Fixpoint reads_then_ok {A} (p : prog (outcome A)) : Prop :=
  match p with
  | Ret r => exists a, r = Ok a
  | Call c k => cmd_readonly c /\ forall x, reads_then_ok (k x)
  end.

(** An upvote request of either service for the idea [oid], not started. *)
Definition upvote_request (oid : ObjectId) (p : prog (outcome IdeaJson)) : Prop :=
  exists idea_id now,
    ObjectId_new idea_id = Some (Oid12 oid) /\
    (p = Root.upvote_idea idea_id now \/ p = Backend.upvote_idea idea_id now).

(** A request of the pool with its flag: [false] before its update of the
    idea, [true] after it. *)
Definition upvote_thread (oid : ObjectId) (p : prog (outcome IdeaJson)) (updated : bool)
  : Prop :=
  if updated then reads_then_ok p else upvote_request oid p.

Definition count_true (flags : list bool) : Z :=
  Z.of_nat (length (List.filter id flags)).

(** The invariant of a pool of upvote requests for the idea [oid], which
    had [v0] votes: its votes are those plus one for each request that has
    made its update. *)
Definition upvotes_inv (oid : ObjectId) (v0 : Z)
    (ps : list (prog (outcome IdeaJson))) (st : Store) : Prop :=
  exists flags,
    Forall2 (upvote_thread oid) ps flags /\
    votes_of oid st = Some (v0 + count_true flags).

(** [d'] is the idea [d] later on: the same identifier, title, description
    and time of creation, and no fewer votes. *)
Definition idea_evolves (d d' : IdeaDoc) : Prop :=
  i_id d' = i_id d /\ i_title d' = i_title d /\
  i_description d' = i_description d /\
  i_created_at d' = i_created_at d /\ i_votes d <= i_votes d'.

(** Every idea of [st] is still in [st'], evolved. *)
Definition ideas_evolve (st st' : Store) : Prop :=
  forall oid d, find_idea oid st = Some d ->
    exists d', find_idea oid st' = Some d' /\ idea_evolves d d'.

(** The comments of [st'] are those of [st], unchanged and in the same
    order, followed by new ones. *)
Definition comments_kept (st st' : Store) : Prop :=
  exists new, comments st' = comments st ++ new.

(** No two ideas share an identifier, nor do two comments. *)
Definition unique_ids (st : Store) : Prop :=
  NoDup (map i_id (ideas st)) /\ NoDup (map c_id (comments st)).

(** No idea has a negative number of votes. *)
Definition votes_nonneg (st : Store) : Prop :=
  Forall (fun d => 0 <= i_votes d) (ideas st).

(** The record of a listing after an upvote of the idea [oid] at [now]:
    that idea's record has one more vote and the new [updated_at], every
    other record is as it was. *)
Definition upvoted (oid : ObjectId) (now : Z) (j : IdeaJson) : IdeaJson :=
  if String.eqb (j_id j) (oid_str oid)
  then mkIdeaJson (j_id j) (j_title j) (j_description j) (j_votes j + 1)
                  (j_created_at j) now (j_comments_count j)
  else j.

(** ** Example data *)

Definition oid_of_hex (s : string) : ObjectId :=
  match ObjectId_new s with
  | Some (Oid12 o) => o
  | _ => exist _ "000000000000000000000000" eq_refl
  end.

Definition oid_A : ObjectId := oid_of_hex "65a000000000000000000001".
Definition oid_B : ObjectId := oid_of_hex "65a000000000000000000002".
Definition oid_C : ObjectId := oid_of_hex "65a000000000000000000003".
Definition oid_N : ObjectId := oid_of_hex "65a0000000000000000000ff".
Definition oid_D : ObjectId := oid_of_hex "65a000000000000000000004".

(** The ideas A(votes=5, t=1), B(votes=5, t=2) and C(votes=3, t=3). *)
Definition idea_A : IdeaDoc := mkIdeaDoc oid_A "A" None 5 1 1.
Definition idea_B : IdeaDoc := mkIdeaDoc oid_B "B" None 5 2 2.
Definition idea_C : IdeaDoc := mkIdeaDoc oid_C "C" None 3 3 3.
Definition store_ABC : Store := mkStore [idea_A; idea_B; idea_C] [].

(** A comment on B, and the database after it was added. *)
Definition comment_on_B : CommentDoc :=
  mkCommentDoc oid_N (oid_str oid_B) (Some "ann") "nice" 10 10.
Definition store_ABC_commented : Store :=
  mkStore [idea_A; idea_B; idea_C] [comment_on_B].


(** An idea created eight days before [now = 1000000000], one created six
    days before. *)
Definition idea_old : IdeaDoc :=
  mkIdeaDoc oid_A "old" None 0 (1000000000 - timedelta_days 8) 0.
Definition idea_recent : IdeaDoc :=
  mkIdeaDoc oid_B "recent" None 0 (1000000000 - timedelta_days 6) 0.
Definition store_week : Store := mkStore [idea_old; idea_recent] [].

(** Data for [create_document]: a title, an ["id"] and a ["created_at"] of
    the caller's own; the document it is stored as at time 10 under the
    identifier [oid_A]. *)
Definition data_dark_mode : Database.Doc :=
  <["title" := Database.VStr "Dark mode"]>
    (<["id" := Database.VInt 7]> (<["created_at" := Database.VInt 1]> ∅)).
Definition stored_dark_mode : Database.Doc :=
  <["_id" := Database.VOid oid_A]>
    (<["updated_at" := Database.VDate 10]>
       (<["created_at" := Database.VDate 10]> data_dark_mode)).
Definition record_dark_mode : Database.Doc :=
  <["id" := Database.VStr (oid_str oid_A)]>
    (<["title" := Database.VStr "Dark mode"]>
       (<["updated_at" := Database.VDate 10]>
          (<["created_at" := Database.VDate 10]> ∅))).
Definition db_dark_mode : Database.Db := <["idea" := [stored_dark_mode]]> ∅.

(** A title of [n] letters. *)
Definition title_of_length (n : nat) : string :=
  string_of_list_ascii (repeat "x"%char n).

(** * Properties *)

(** ** ObjectId *)

Lemma oid_str_inj (a b : ObjectId) : oid_str a = oid_str b -> a = b.
Proof. intros H. by apply (sig_eq_pi _). Qed.

Lemma hex_fold_lower c : is_hex_lower c = true -> hex_fold c = c.
Proof.
  destruct c as [[] [] [] [] [] [] [] []]; vm_compute; congruence.
Qed.

Lemma is_hex_lower_digit c :
  is_hex_lower c = true -> is_ascii_space c = false /\ is_hex c = true.
Proof.
  destruct c as [[] [] [] [] [] [] [] []]; vm_compute; intuition congruence.
Qed.

(** [bytes.fromhex] reads an even number of lower-case digits as they
    are. *)
Lemma fromhex_lower (n : nat) (s : string) :
  String.length s = (2 * n)%nat ->
  forallb is_hex_lower (list_ascii_of_string s) = true ->
  fromhex s = Some s.
Proof.
  revert s. induction n as [|n IH]; intros s Hlen Hhex.
  - by destruct s.
  - destruct s as [|c [|c' r]]; [done|cbn in Hlen; lia|].
    cbn in Hhex. apply andb_prop in Hhex as [Hc Hhex].
    apply andb_prop in Hhex as [Hc' Hr].
    destruct (is_hex_lower_digit c Hc) as [Hs Hx].
    destruct (is_hex_lower_digit c' Hc') as [_ Hx'].
    cbn [fromhex]. rewrite Hs, Hx, Hx'. cbn [andb].
    rewrite (IH r); [|cbn in Hlen; lia|done]. cbn.
    by rewrite !hex_fold_lower.
Qed.

Lemma Oid_of_hex_str (o : ObjectId) : Oid_of_hex (oid_str o) = Oid12 o.
Proof.
  destruct o as [s Hs]. unfold Oid_of_hex, oid_str; cbn.
  generalize (eq_refl (canonical s)).
  generalize (canonical s) at 2 3.
  intros b Hb. destruct b.
  - f_equal. by apply oid_str_inj.
  - congruence.
Qed.

(** Parsing the canonical string of an ObjectId gives the ObjectId back. *)
Lemma ObjectId_new_str (o : ObjectId) : ObjectId_new (oid_str o) = Some (Oid12 o).
Proof.
  unfold ObjectId_new. destruct o as [s Hs] eqn:Ho. cbn [oid_str proj1_sig].
  pose proof Hs as Hc. unfold canonical in Hc. apply andb_prop in Hc as [Hlen Hhex].
  rewrite Hlen. apply Nat.eqb_eq in Hlen.
  rewrite (fromhex_lower 12 s) by done. cbn [fmap option_fmap option_map].
  f_equal. rewrite <- Ho. change s with (oid_str (exist _ s Hs)).
  rewrite <- Ho. apply Oid_of_hex_str.
Qed.

Lemma oid_eqb_eq (a b : ObjectId) : oid_eqb a b = true <-> a = b.
Proof.
  unfold oid_eqb. rewrite String.eqb_eq. split.
  - apply oid_str_inj.
  - by intros ->.
Qed.

Lemma oid_eqb_refl (a : ObjectId) : oid_eqb a a = true.
Proof. by apply oid_eqb_eq. Qed.

Lemma oid_eqb_neq (a b : ObjectId) : oid_eqb a b = false <-> a <> b.
Proof.
  rewrite <- oid_eqb_eq. destruct (oid_eqb a b); split; congruence.
Qed.

(** ** [strip] *)

Lemma lstrip_decomp s :
  exists l, s = (l ++ lstrip s)%string /\ all_space l = true.
Proof.
  induction s as [|c r [l [Hl Hs]]]; cbn.
  - by exists "".
  - destruct (is_space c) eqn:Hc.
    + exists (String c l). split; [change (String c r = String c (l +:+ lstrip r)); by f_equal|].
      unfold all_space in *. cbn. by rewrite Hc.
    + by exists "".
Qed.

Lemma rstrip_decomp s :
  exists r, s = (rstrip s ++ r)%string /\ all_space r = true.
Proof.
  induction s as [|c s' [r [Hr Hs]]]; cbn.
  - by exists "".
  - destruct (rstrip s') as [|c' t] eqn:Ht.
    + destruct (is_space c) eqn:Hc.
      * exists (String c r). split; [change (String c s' = String c r); by f_equal|].
        unfold all_space in *. cbn. by rewrite Hc.
      * exists r. split; [change (String c s' = String c ("" +:+ r)); by f_equal|done].
    + exists r. split; [change (String c s' = String c (String c' t +:+ r)); by f_equal|done].
Qed.

Lemma lstrip_first s c : first_char (lstrip s) = Some c -> is_space c = false.
Proof.
  induction s as [|a r IH]; cbn; [done|].
  destruct (is_space a) eqn:Ha; [done|].
  cbn. by intros [= <-].
Qed.

Lemma rstrip_last s c : last_char (rstrip s) = Some c -> is_space c = false.
Proof.
  revert c. induction s as [|a r IH]; cbn; [done|].
  intros c. destruct (rstrip r) as [|b t] eqn:Hr.
  - destruct (is_space a) eqn:Ha; cbn; [done|]. by intros [= <-].
  - cbn. cbn in IH. apply IH.
Qed.

Lemma rstrip_first s c :
  first_char (rstrip s) = Some c -> first_char s = Some c.
Proof.
  destruct s as [|a r]; cbn; [done|].
  destruct (rstrip r); [destruct (is_space a)|]; cbn; done.
Qed.

(** The result of [strip] has no whitespace at either end. *)
Lemma strip_trimmed s : trimmed (strip s).
Proof.
  split; intros c H.
  - apply rstrip_first in H. by apply lstrip_first in H.
  - by apply rstrip_last in H.
Qed.

(** [strip] only removes whitespace, and only at the ends. *)
Lemma strip_decomp s :
  exists l r, s = (l ++ strip s ++ r)%string /\
              all_space l = true /\ all_space r = true.
Proof.
  destruct (lstrip_decomp s) as [l [Hl Hls]].
  destruct (rstrip_decomp (lstrip s)) as [r [Hr Hrs]].
  exists l, r. unfold strip. by rewrite <- Hr.
Qed.

Lemma lstrip_all_space s : all_space s = true -> lstrip s = "".
Proof.
  unfold all_space. induction s as [|c r IH]; cbn; [done|].
  intros H. apply andb_prop in H as [-> Hr]. by apply IH.
Qed.

(** A string of whitespace strips to the empty string. *)
Lemma strip_all_space s : all_space s = true -> strip s = "".
Proof. intros H. unfold strip. by rewrite lstrip_all_space. Qed.

(** ** Sorting *)

Section SortFacts.
Context {A K : Type} (ltb : K -> K -> bool) (key : A -> K).
Hypothesis ltb_asym : forall a b, ltb a b = true -> ltb b a = false.
Hypothesis ltb_negtrans :
  forall a b c, ltb b a = false -> ltb c b = false -> ltb c a = false.
Local Abbreviation asc := (asc ltb key).
Local Abbreviation desc := (desc ltb key).

Lemma insert_sorted_perm x l : Permutation (insert_sorted ltb key x l) (x :: l).
Proof.
  induction l as [|y l IH]; cbn; [done|].
  destruct (ltb (key y) (key x)); [|done].
  rewrite IH. apply perm_swap.
Qed.

Lemma sort_asc_perm l : Permutation (sort_asc ltb key l) l.
Proof.
  induction l as [|x l IH]; cbn; [done|].
  by rewrite insert_sorted_perm, IH.
Qed.

Lemma sort_reverse_perm l : Permutation (sort_reverse ltb key l) l.
Proof.
  unfold sort_reverse.
  by rewrite <- Permutation_rev, sort_asc_perm, <- Permutation_rev.
Qed.

Lemma insert_sorted_sorted x l :
  StronglySorted asc l -> StronglySorted asc (insert_sorted ltb key x l).
Proof.
  induction 1 as [|y l Hl IH Hy]; cbn.
  - repeat constructor.
  - destruct (ltb (key y) (key x)) eqn:E.
    + constructor; [done|].
      eapply Permutation_Forall; [symmetry; apply insert_sorted_perm|].
      constructor; [|done]. by apply ltb_asym.
    + constructor; [by constructor|].
      constructor; [done|].
      eapply Forall_impl; [exact Hy|].
      intros z Hz. unfold asc in *. eauto.
Qed.

Lemma sort_asc_sorted l : StronglySorted asc (sort_asc ltb key l).
Proof.
  induction l as [|x l IH]; cbn; [constructor|].
  by apply insert_sorted_sorted.
Qed.

Lemma StronglySorted_rev_asc l :
  StronglySorted asc l -> StronglySorted desc (rev l).
Proof.
  induction 1 as [|x l Hl IH Hx]; cbn; [constructor|].
  apply StronglySorted_app; repeat split.
  - intros a b Ha Hb. apply list_elem_of_singleton in Hb as ->.
    apply list_elem_of_In, in_rev, list_elem_of_In in Ha.
    rewrite Forall_forall in Hx. by apply Hx.
  - done.
  - repeat constructor.
Qed.

(** [sort(..., reverse=True)] leaves the list in descending order of the
    key: no element has a smaller key than a later one. *)
Lemma sort_reverse_sorted l : StronglySorted desc (sort_reverse ltb key l).
Proof. apply StronglySorted_rev_asc, sort_asc_sorted. Qed.
End SortFacts.

(** The sort is stable: elements none of which is smaller than another,
    such as those of one key, keep the order they had. *)
Section SortStable.
Context {A K : Type} (ltb : K -> K -> bool) (key : A -> K) (p : A -> bool).
Hypothesis p_ties :
  forall x y, p x = true -> p y = true -> ltb (key y) (key x) = false.

Lemma insert_sorted_filter x l :
  List.filter p (insert_sorted ltb key x l) = List.filter p (x :: l).
Proof.
  induction l as [|y l IH]; [done|].
  cbn [insert_sorted]. destruct (ltb (key y) (key x)) eqn:E; [|done].
  cbn [List.filter] in *. rewrite IH.
  destruct (p x) eqn:Hx, (p y) eqn:Hy; try done.
  rewrite (p_ties x y Hx Hy) in E. discriminate.
Qed.

Lemma sort_asc_filter l :
  List.filter p (sort_asc ltb key l) = List.filter p l.
Proof.
  induction l as [|x l IH]; [done|].
  cbn [sort_asc]. rewrite insert_sorted_filter. cbn [List.filter].
  by rewrite IH.
Qed.

Lemma sort_reverse_stable l :
  List.filter p (sort_reverse ltb key l) = List.filter p l.
Proof.
  unfold sort_reverse.
  by rewrite filter_rev, sort_asc_filter, filter_rev, rev_involutive.
Qed.
End SortStable.

Lemma Z_ltb_asym (a b : Z) : (a <? b) = true -> (b <? a) = false.
Proof. lia. Qed.

Lemma Z_ltb_negtrans (a b c : Z) :
  (b <? a) = false -> (c <? b) = false -> (c <? a) = false.
Proof. lia. Qed.

Lemma tuple_ltb_spec (a b : Z * Z) :
  tuple_ltb a b = true <-> a.1 < b.1 \/ (a.1 = b.1 /\ a.2 < b.2).
Proof. unfold tuple_ltb. lia. Qed.

Lemma tuple_ltb_false (a b : Z * Z) :
  tuple_ltb a b = false <-> b.1 < a.1 \/ (a.1 = b.1 /\ b.2 <= a.2).
Proof.
  unfold tuple_ltb. lia.
Qed.

Lemma tuple_ltb_asym (a b : Z * Z) : tuple_ltb a b = true -> tuple_ltb b a = false.
Proof. rewrite tuple_ltb_spec, tuple_ltb_false. lia. Qed.

Lemma tuple_ltb_negtrans (a b c : Z * Z) :
  tuple_ltb b a = false -> tuple_ltb c b = false -> tuple_ltb c a = false.
Proof. rewrite !tuple_ltb_false. lia. Qed.

(** ** The aggregation of comment counts *)

Lemma comment_count_nonneg s cs : 0 <= comment_count s cs.
Proof. unfold comment_count. lia. Qed.

Lemma comment_count_snoc s cs c :
  comment_count s (cs ++ [c]) =
  comment_count s cs + (if String.eqb (c_idea_id c) s then 1 else 0).
Proof.
  unfold comment_count, comments_of.
  rewrite List.filter_app, length_app. cbn.
  destruct (String.eqb (c_idea_id c) s); cbn; lia.
Qed.

Lemma string_eqb_neq (a b : string) : a <> b -> String.eqb a b = false.
Proof. intros H. by apply String.eqb_neq. Qed.

(** Each group of the pipeline carries the number of comments of its key,
    and there is a group exactly for the matched keys that have comments. *)
Lemma group_counts_lookup ids cs s :
  group_counts ids cs !! s =
  if string_in s ids && (0 <? comment_count s cs)
  then Some (comment_count s cs) else None.
Proof.
  unfold group_counts.
  induction cs as [|c cs IH] using rev_ind.
  - cbn. rewrite lookup_empty. by rewrite andb_false_r.
  - rewrite foldl_app, comment_count_snoc. cbn.
    pose proof (comment_count_nonneg s cs) as Hn.
    destruct (string_in (c_idea_id c) ids) eqn:Hin.
    + destruct (decide (c_idea_id c = s)) as [Heq|Hne].
      * rewrite Heq in *.
        rewrite lookup_insert_eq, IH, Hin, String.eqb_refl. cbn.
        destruct (0 <? comment_count s cs) eqn:E.
        -- cbn. replace (0 <? comment_count s cs + 1) with true by lia. done.
        -- cbn. replace (0 <? comment_count s cs + 1) with true by lia.
           f_equal. lia.
      * rewrite lookup_insert_ne by done.
        rewrite IH, (string_eqb_neq _ _ Hne). by rewrite Z.add_0_r.
    + rewrite IH.
      destruct (String.eqb (c_idea_id c) s) eqn:E; [|by rewrite Z.add_0_r].
      apply String.eqb_eq in E as <-. by rewrite Hin.
Qed.

Lemma group_counts_default ids cs s :
  string_in s ids = true ->
  default 0 (group_counts ids cs !! s) = comment_count s cs.
Proof.
  intros Hin. rewrite group_counts_lookup, Hin. cbn.
  pose proof (comment_count_nonneg s cs).
  destruct (0 <? comment_count s cs) eqn:E; cbn; lia.
Qed.

Lemma group_counts_key ids cs s n :
  group_counts ids cs !! s = Some n -> string_in s ids = true.
Proof.
  rewrite group_counts_lookup.
  by destruct (string_in s ids).
Qed.

Lemma string_in_elem s l : string_in s l = true <-> s ∈ l.
Proof.
  unfold string_in. rewrite existsb_exists. split.
  - intros [x [Hx He]]. apply String.eqb_eq in He as ->. by apply list_elem_of_In.
  - intros H. exists s. split; [by apply list_elem_of_In|apply String.eqb_refl].
Qed.

(** The dict built from rows of distinct keys holds exactly the rows. *)
Lemma counts_of_rows_lookup rows k v :
  NoDup rows.*1 ->
  Root.counts_of_rows rows !! k = Some v <-> (k, v) ∈ rows.
Proof.
  unfold Root.counts_of_rows.
  induction rows as [|[k' v'] rows IH] using rev_ind; intros Hnd.
  - cbn. rewrite lookup_empty. split; [done|]. by intros ?%elem_of_nil.
  - rewrite fmap_app in Hnd. apply NoDup_app in Hnd as (Hnd & Hdis & _).
    rewrite foldl_app. cbn. rewrite elem_of_app, list_elem_of_singleton.
    destruct (decide (k' = k)) as [->|Hne].
    + rewrite lookup_insert_eq. split.
      * intros [= ->]. by right.
      * intros [Hin|[= ->]]; [|done].
        exfalso. apply (Hdis k); [|cbn; apply list_elem_of_here].
        apply list_elem_of_fmap. by exists (k, v).
    + rewrite lookup_insert_ne by done. rewrite IH by done.
      split; [by left|]. intros [?|[= ? ?]]; [done|congruence].
Qed.

Lemma counts_of_rows_map_to_list (m : gmap string Z) :
  Root.counts_of_rows (map_to_list m) = m.
Proof.
  apply map_eq. intros k. apply option_eq. intros v.
  rewrite counts_of_rows_lookup by apply NoDup_fst_map_to_list.
  apply elem_of_map_to_list.
Qed.

Lemma zero_counts_lookup ids oid v :
  Backend.zero_counts ids !! oid = Some v -> v = 0.
Proof.
  unfold Backend.zero_counts.
  induction ids as [|i ids IH] using rev_ind; cbn.
  - by rewrite lookup_empty.
  - rewrite foldl_app. cbn.
    destruct (decide (Oid12 i = oid)) as [<-|Hne].
    + rewrite lookup_insert_eq. congruence.
    + by rewrite lookup_insert_ne.
Qed.

Section AddRows.
Context (counts : gmap Oid Z) (rows : list (string * Z)).

(** A row of the identifier's own string sets its count. *)
Lemma add_rows_hit oid n :
  NoDup rows.*1 ->
  (forall r, r ∈ rows -> exists o, r.1 = oid_str o) ->
  (oid_str oid, n) ∈ rows ->
  Backend.add_rows counts rows !! Oid12 oid = Some n.
Proof.
  unfold Backend.add_rows. clear.
  induction rows as [|[k v] rows' IH] using rev_ind; intros Hnd Hcan Hin.
  - by apply elem_of_nil in Hin.
  - rewrite fmap_app in Hnd. apply NoDup_app in Hnd as (Hnd & Hdis & _).
    rewrite foldl_app. cbn.
    destruct (Hcan (k, v)) as [o Ho]; [apply elem_of_app; right; apply list_elem_of_here|].
    cbn in Ho. subst k. rewrite ObjectId_new_str.
    apply elem_of_app in Hin as [Hin|Hin].
    + assert (o <> oid) as Hne.
      { intros ->. apply (Hdis (oid_str oid)); [|cbn; apply list_elem_of_here].
        apply list_elem_of_fmap. by exists (oid_str oid, n). }
      rewrite lookup_insert_ne by congruence.
      apply IH; [done| |done].
      intros r Hr. apply Hcan, elem_of_app. by left.
    + apply list_elem_of_singleton in Hin. injection Hin as Hk ->.
      apply oid_str_inj in Hk as ->. by rewrite lookup_insert_eq.
Qed.

(** Without such a row the count is left as it was. *)
Lemma add_rows_miss oid :
  (forall r, r ∈ rows -> exists o, r.1 = oid_str o) ->
  oid_str oid ∉ rows.*1 ->
  Backend.add_rows counts rows !! Oid12 oid = counts !! Oid12 oid.
Proof.
  unfold Backend.add_rows. clear.
  induction rows as [|[k v] rows' IH] using rev_ind; intros Hcan Hin; [done|].
  rewrite foldl_app. cbn.
  destruct (Hcan (k, v)) as [o Ho]; [apply elem_of_app; right; apply list_elem_of_here|].
  cbn in Ho. subst k. rewrite ObjectId_new_str.
  rewrite fmap_app, not_elem_of_app in Hin. destruct Hin as [Hin1 Hin2].
  cbn in Hin2. rewrite list_elem_of_singleton in Hin2.
  rewrite lookup_insert_ne by congruence.
  apply IH; [|done].
  intros r Hr. apply Hcan, elem_of_app. by left.
Qed.
End AddRows.

(** ** [list_ideas] as one expression *)

Lemma Root_enrich_counts ids cs (i : IdeaDoc) :
  oid_str (i_id i) ∈ ids ->
  Root.enrich (group_counts ids cs) i = idea_json cs i.
Proof.
  intros Hin. unfold Root.enrich, idea_json. cbn.
  rewrite group_counts_default; [done|]. by apply string_in_elem.
Qed.

Lemma Backend_enrich_counts ids cs (i : IdeaDoc) :
  i_id i ∈ ids ->
  Backend.enrich
    (Backend.add_rows (Backend.zero_counts ids)
       (map_to_list (group_counts (map oid_str ids) cs))) i
  = idea_json cs i.
Proof.
  intros Hin. unfold Backend.enrich, idea_json, Backend.serialize_id.
  do 2 f_equal.
  set (m := group_counts (map oid_str ids) cs).
  assert (Hstr : string_in (oid_str (i_id i)) (map oid_str ids) = true).
  { apply string_in_elem, list_elem_of_fmap. by exists (i_id i). }
  assert (Hcan : forall r, r ∈ map_to_list m -> exists o, r.1 = oid_str o).
  { intros [k v] Hr. apply elem_of_map_to_list in Hr.
    apply group_counts_key, string_in_elem, list_elem_of_fmap in Hr
      as (o & -> & _). by exists o. }
  destruct (m !! oid_str (i_id i)) as [n|] eqn:E.
  - rewrite (add_rows_hit _ _ _ n); [| apply NoDup_fst_map_to_list | done
                                     | by apply elem_of_map_to_list].
    cbn. unfold m in E. rewrite group_counts_lookup, Hstr in E. cbn in E.
    destruct (0 <? comment_count (oid_str (i_id i)) cs); congruence.
  - rewrite add_rows_miss; [|done|].
    + unfold m in E. rewrite group_counts_lookup, Hstr in E. cbn in E.
      pose proof (comment_count_nonneg (oid_str (i_id i)) cs).
      destruct (0 <? comment_count (oid_str (i_id i)) cs) eqn:E'; [done|].
      destruct (Backend.zero_counts ids !! Oid12 (i_id i)) as [v|] eqn:Ez; cbn; [|lia].
      apply zero_counts_lookup in Ez. lia.
    + intros Hk. apply list_elem_of_fmap in Hk as ([k v] & Hk & Hr).
      cbn in Hk. subst k. apply elem_of_map_to_list in Hr. congruence.
Qed.

(** [list_ideas] of [src/main.py] reads the database once or twice, leaves
    it as it is, and returns the selected ideas, each with its count, in
    the order of [sort_enriched]. *)
Lemma Root_list_ideas_run range sort now st :
  run (Root.list_ideas range sort now) st =
  (Ok (Root.sort_enriched sort
         (map (idea_json (comments st))
              (List.filter (in_range (Root.since range now)) (ideas st)))), st).
Proof.
  unfold Root.list_ideas. cbn.
  set (l := List.filter _ _).
  destruct l as [|d l'] eqn:El; [done|].
  assert (Hm : map (Root.enrich (group_counts (map oid_str (map i_id (d :: l')))
                                              (comments st))) (d :: l')
               = map (idea_json (comments st)) (d :: l')).
  { apply map_ext_in. intros i Hi. apply Root_enrich_counts.
    apply list_elem_of_fmap. exists (i_id i).
    split; [done|]. apply list_elem_of_fmap. exists i. split; [done|].
    by apply list_elem_of_In. }
  cbn -[group_counts] in Hm |- *. rewrite counts_of_rows_map_to_list.
  by rewrite Hm.
Qed.

(** The same for [list_ideas] of [src/backend/main.py]. *)
Lemma Backend_list_ideas_run range sort now st :
  run (Backend.list_ideas range sort now) st =
  (Ok (Backend.sort_items sort
         (map (idea_json (comments st))
              (List.filter (in_range (Backend.since range now)) (ideas st)))), st).
Proof.
  unfold Backend.list_ideas. cbn.
  set (l := List.filter _ _).
  destruct l as [|d l'] eqn:El; [done|].
  assert (Hm : map (Backend.enrich
                      (Backend.add_rows (Backend.zero_counts (map i_id (d :: l')))
                         (map_to_list (group_counts (map oid_str (map i_id (d :: l')))
                                                    (comments st))))) (d :: l')
               = map (idea_json (comments st)) (d :: l')).
  { apply map_ext_in. intros i Hi. apply Backend_enrich_counts.
    apply list_elem_of_fmap. exists i. split; [done|].
    by apply list_elem_of_In. }
  cbn -[group_counts Backend.zero_counts] in Hm |- *.
  by rewrite Hm.
Qed.

(** ** The order of a listing *)

Lemma StronglySorted_mono {A} (R S : A -> A -> Prop) (l : list A) :
  (forall x y, R x y -> S x y) -> StronglySorted R l -> StronglySorted S l.
Proof.
  intros HRS. induction 1 as [|x l Hl IH Hx]; constructor; [done|].
  eapply Forall_impl; [exact Hx|]. auto.
Qed.

Lemma sort_items_ordered sort l :
  StronglySorted (ordered_by (primary_field sort)) (Backend.sort_items sort l).
Proof.
  destruct sort; cbn.
  - eapply StronglySorted_mono;
      [|apply (sort_reverse_sorted tuple_ltb _ tuple_ltb_asym tuple_ltb_negtrans)].
    intros x y H. unfold desc in H. apply tuple_ltb_false in H. cbn in H.
    unfold ordered_by. cbn. lia.
  - eapply StronglySorted_mono;
      [|apply (sort_reverse_sorted tuple_ltb _ tuple_ltb_asym tuple_ltb_negtrans)].
    intros x y H. unfold desc in H. apply tuple_ltb_false in H. cbn in H.
    unfold ordered_by. cbn. lia.
Qed.

(** In [src/backend/main.py] every listing is in descending order of the
    primary field, ties in descending order of [created_at]. *)
Lemma Backend_list_ideas_ordered range sort now st :
  exists l, run (Backend.list_ideas range sort now) st = (Ok l, st) /\
            StronglySorted (ordered_by (primary_field sort)) l.
Proof.
  rewrite Backend_list_ideas_run. eexists. split; [done|].
  apply sort_items_ordered.
Qed.

(** On the ideas A, B and C it returns [B; A; C]. *)
Lemma Backend_list_ideas_ABC now :
  run (Backend.list_ideas Backend.all Backend.votes now) store_ABC =
  (Ok [idea_json [] idea_B; idea_json [] idea_A; idea_json [] idea_C], store_ABC).
Proof. by rewrite Backend_list_ideas_run. Qed.

(** In [src/main.py] a listing is in descending order of the primary field
    alone. *)
Lemma Root_list_ideas_primary_ordered range sort now st :
  exists l, run (Root.list_ideas range sort now) st = (Ok l, st) /\
    StronglySorted
      (fun x y => primary_field (if String.eqb sort "comments"
                                 then Backend.comments else Backend.votes) y
                  <= primary_field (if String.eqb sort "comments"
                                    then Backend.comments else Backend.votes) x) l.
Proof.
  rewrite Root_list_ideas_run. eexists. split; [done|].
  unfold Root.sort_enriched.
  destruct (String.eqb sort "comments"); cbn.
  - eapply StronglySorted_mono;
      [|apply (sort_reverse_sorted Z.ltb _ Z_ltb_asym Z_ltb_negtrans)].
    intros x y H. unfold desc in H. lia.
  - eapply StronglySorted_mono;
      [|apply (sort_reverse_sorted Z.ltb _ Z_ltb_asym Z_ltb_negtrans)].
    intros x y H. unfold desc in H. lia.
Qed.

Lemma filter_map_comm {A B} (f : A -> B) (p : B -> bool) (l : list A) :
  List.filter p (map f l) = map f (List.filter (fun a => p (f a)) l).
Proof.
  induction l as [|a l IH]; [done|].
  cbn. destruct (p (f a)); cbn; by rewrite IH.
Qed.

(** In [src/main.py] the ideas of one primary value come in the order in
    which they are stored, whatever their [created_at]. *)
Lemma Root_list_ideas_ties_in_stored_order range sort now st v :
  let primary := primary_field (if String.eqb sort "comments"
                                then Backend.comments else Backend.votes) in
  exists l, run (Root.list_ideas range sort now) st = (Ok l, st) /\
    List.filter (fun j => primary j =? v) l =
    map (idea_json (comments st))
        (List.filter (fun d => primary (idea_json (comments st) d) =? v)
                     (List.filter (in_range (Root.since range now)) (ideas st))).
Proof.
  intros primary. rewrite Root_list_ideas_run. eexists. split; [done|].
  rewrite <- (filter_map_comm (idea_json (comments st)) (fun j => primary j =? v)).
  unfold Root.sort_enriched. subst primary.
  destruct (String.eqb sort "comments"); cbn [primary_field];
    apply sort_reverse_stable; intros x y Hx Hy; lia.
Qed.

(** C1, at its failing input.  [list_ideas] of [src/main.py] sorts by the
    primary field only: on the ideas A(votes=5, t=1), B(votes=5, t=2),
    C(votes=3, t=3), stored in this order, [range=all, sort=votes] returns
    [A; B; C], the tie between A and B left in stored order, where the
    claimed order by votes then [created_at], both descending, is
    [B; A; C]. *)
Theorem C1_root_list_ideas_ties_in_stored_order :
  forall now,
    run (Root.list_ideas "all" "votes" now) store_ABC =
    (Ok [idea_json [] idea_A; idea_json [] idea_B; idea_json [] idea_C], store_ABC)
    /\ ~ ordered_by j_votes (idea_json [] idea_A) (idea_json [] idea_B)
    /\ ~ StronglySorted (ordered_by j_votes)
          [idea_json [] idea_A; idea_json [] idea_B; idea_json [] idea_C].
Proof.
  intros now. split; [by rewrite Root_list_ideas_run|].
  assert (Hn : ~ ordered_by j_votes (idea_json [] idea_A) (idea_json [] idea_B)).
  { unfold ordered_by. cbn. lia. }
  split; [done|].
  intros H. apply StronglySorted_inv in H as [_ H].
  apply Forall_inv in H. done.
Qed.

(** ** Inserting and finding documents *)

Lemma find_idea_app_new (l : list IdeaDoc) (d : IdeaDoc) :
  existsb (fun d' => oid_eqb (i_id d') (i_id d)) l = false ->
  List.find (fun d' => oid_eqb (i_id d') (i_id d)) (l ++ [d]) = Some d.
Proof.
  induction l as [|a l IH]; cbn.
  - by rewrite oid_eqb_refl.
  - intros H. apply orb_false_elim in H as [-> H]. by apply IH.
Qed.

Lemma find_comment_app_new (l : list CommentDoc) (d : CommentDoc) :
  existsb (fun d' => oid_eqb (c_id d') (c_id d)) l = false ->
  List.find (fun d' => oid_eqb (c_id d') (c_id d)) (l ++ [d]) = Some d.
Proof.
  induction l as [|a l IH]; cbn.
  - by rewrite oid_eqb_refl.
  - intros H. apply orb_false_elim in H as [-> H]. by apply IH.
Qed.

(** A successful [add_comment] of [src/main.py] appends one comment, with
    the path's [idea_id] as typed, and leaves the ideas alone. *)
Lemma Root_add_comment_ok idea_id payload now new_id st c st' :
  run (Root.add_comment idea_id payload now new_id) st = (Ok c, st') ->
  let doc := mkCommentDoc new_id idea_id (Root.author payload)
                          (Root.content payload) now now in
  st' = mkStore (ideas st) (comments st ++ [doc]) /\
  c = Root.serialize_comment doc /\
  exists oid, ObjectId_new idea_id = Some (Oid12 oid) /\ is_Some (find_idea oid st).
Proof.
  unfold Root.add_comment, Root.create_document_comment, find_idea.
  destruct (ObjectId_new idea_id) as [[oid|h]|]; [|done..]. cbn.
  destruct (List.find _ (ideas st)) as [d|] eqn:Ef; [|done]. cbn.
  destruct (existsb _ (comments st)) eqn:Ex; [done|]. cbn.
  rewrite (ObjectId_new_str new_id). cbn.
  pose proof (find_comment_app_new (comments st)
                (mkCommentDoc new_id idea_id (Root.author payload)
                              (Root.content payload) now now)) as Hf.
  cbn in Hf. rewrite (Hf Ex).
  intros [= <- <-]. repeat split; eauto.
Qed.

(** The same for [src/backend/main.py], which stores the author and the
    content stripped. *)
Lemma Backend_add_comment_ok idea_id payload now new_id st c st' :
  run (Backend.add_comment idea_id payload now new_id) st = (Ok c, st') ->
  let doc := mkCommentDoc new_id idea_id (Backend.strip_opt (Backend.author payload))
                          (strip (Backend.content payload)) now now in
  st' = mkStore (ideas st) (comments st ++ [doc]) /\
  c = Backend.serialize_comment doc /\
  exists oid, ObjectId_new idea_id = Some (Oid12 oid) /\ is_Some (find_idea oid st).
Proof.
  unfold Backend.add_comment, Backend.PyObjectId_validate, find_idea.
  destruct (ObjectId_new idea_id) as [[oid|h]|]; [|done..]. cbn.
  destruct (List.find _ (ideas st)) as [d|] eqn:Ef; [|done]. cbn.
  destruct (existsb _ (comments st)) eqn:Ex; [done|]. cbn.
  pose proof (find_comment_app_new (comments st)
                (mkCommentDoc new_id idea_id (Backend.strip_opt (Backend.author payload))
                              (strip (Backend.content payload)) now now)) as Hf.
  cbn in Hf. rewrite (Hf Ex).
  intros [= <- <-]. repeat split; eauto.
Qed.


(** The same for the body of [add_comment] of [src/backend/main.py]. *)
Lemma Backend_add_comment_run idea_id x d payload now new_id st :
  ObjectId_new idea_id = Some (Oid12 x) ->
  find_idea x st = Some d ->
  existsb (fun c => oid_eqb (c_id c) new_id) (comments st) = false ->
  let doc := mkCommentDoc new_id idea_id (Backend.strip_opt (Backend.author payload))
                          (strip (Backend.content payload)) now now in
  run (Backend.add_comment idea_id payload now new_id) st =
  (Ok (Backend.serialize_comment doc), mkStore (ideas st) (comments st ++ [doc])).
Proof.
  intros Hx Hd Hfresh doc. unfold find_idea in Hd.
  unfold Backend.add_comment, Backend.PyObjectId_validate. rewrite Hx. cbn.
  rewrite Hd. cbn. rewrite Hfresh. cbn.
  pose proof (find_comment_app_new (comments st) doc) as Hf.
  subst doc. cbn in Hf. by rewrite (Hf Hfresh).
Qed.

(** ** Comment counts of a listing *)

Lemma Root_list_ideas_perm range sort now st :
  exists l, run (Root.list_ideas range sort now) st = (Ok l, st) /\
    Permutation l (map (idea_json (comments st))
                       (List.filter (in_range (Root.since range now)) (ideas st))).
Proof.
  rewrite Root_list_ideas_run. eexists. split; [done|].
  unfold Root.sort_enriched.
  destruct (String.eqb sort "comments"); apply sort_reverse_perm.
Qed.

Lemma Backend_list_ideas_perm range sort now st :
  exists l, run (Backend.list_ideas range sort now) st = (Ok l, st) /\
    Permutation l (map (idea_json (comments st))
                       (List.filter (in_range (Backend.since range now)) (ideas st))).
Proof.
  rewrite Backend_list_ideas_run. eexists. split; [done|].
  destruct sort; apply sort_reverse_perm.
Qed.








(** ** The time filter *)

Lemma listing_since_excludes st t l d :
  listing st (created_since t) l -> i_created_at d < t ->
  idea_json (comments st) d ∉ l.
Proof.
  intros Hp Hlt Hin. unfold listing in Hp. rewrite Hp in Hin.
  apply list_elem_of_fmap in Hin as (d' & Heq & Hd').
  apply list_elem_of_In, filter_In in Hd' as [_ Hk].
  unfold created_since in Hk.
  assert (i_created_at d' = i_created_at d) by (by injection Heq).
  lia.
Qed.

Lemma listing_since_includes st t l d :
  listing st (created_since t) l -> d ∈ ideas st -> t <= i_created_at d ->
  idea_json (comments st) d ∈ l.
Proof.
  intros Hp Hd Hle. unfold listing in Hp. rewrite Hp.
  apply list_elem_of_fmap. exists d. split; [done|].
  apply list_elem_of_In, filter_In. split; [by apply list_elem_of_In|].
  unfold created_since. lia.
Qed.

(** C7.  In both services [list_ideas] returns, for [range=week], exactly
    the ideas created at [now - 7 days] or later, for [range=month] exactly
    those created at [now - 30 days] or later, and for [range=all] every
    idea; so a week's listing leaves out an idea created eight days before
    the call and holds one created six days before it. *)
Theorem C7_list_ideas_time_range :
  forall now st,
    (forall sort, exists l,
        run (Root.list_ideas "week" sort now) st = (Ok l, st) /\
        listing st (created_since (now - timedelta_days 7)) l) /\
    (forall sort, exists l,
        run (Root.list_ideas "month" sort now) st = (Ok l, st) /\
        listing st (created_since (now - timedelta_days 30)) l) /\
    (forall sort, exists l,
        run (Root.list_ideas "all" sort now) st = (Ok l, st) /\
        listing st (fun _ => true) l) /\
    (forall sort, exists l,
        run (Backend.list_ideas Backend.week sort now) st = (Ok l, st) /\
        listing st (created_since (now - timedelta_days 7)) l) /\
    (forall sort, exists l,
        run (Backend.list_ideas Backend.month sort now) st = (Ok l, st) /\
        listing st (created_since (now - timedelta_days 30)) l) /\
    (forall sort, exists l,
        run (Backend.list_ideas Backend.all sort now) st = (Ok l, st) /\
        listing st (fun _ => true) l) /\
    (forall l d,
        listing st (created_since (now - timedelta_days 7)) l ->
        d ∈ ideas st ->
        (i_created_at d = now - timedelta_days 8 -> idea_json (comments st) d ∉ l) /\
        (i_created_at d = now - timedelta_days 6 -> idea_json (comments st) d ∈ l)).
Proof.
  intros now st. repeat split.
  - intros sort. apply (Root_list_ideas_perm "week" sort now st).
  - intros sort. apply (Root_list_ideas_perm "month" sort now st).
  - intros sort. apply (Root_list_ideas_perm "all" sort now st).
  - intros sort. apply (Backend_list_ideas_perm Backend.week sort now st).
  - intros sort. apply (Backend_list_ideas_perm Backend.month sort now st).
  - intros sort. apply (Backend_list_ideas_perm Backend.all sort now st).
  - intros Ht. eapply listing_since_excludes; [done|].
    rewrite Ht. unfold timedelta_days. lia.
  - intros Ht. eapply listing_since_includes; [done..|].
    rewrite Ht. unfold timedelta_days. lia.
Qed.

(** With an idea created eight days ago and one created six days ago, the
    week's listing is the second one alone. *)
Lemma C7_list_ideas_time_range_witness :
  run (Root.list_ideas "week" "votes" 1000000000) store_week
  = (Ok [idea_json [] idea_recent], store_week) /\
  (idea_json [] idea_old ∉ [idea_json [] idea_recent]) /\
  (idea_json [] idea_recent ∈ [idea_json [] idea_recent]).
Proof.
  split; [vm_compute; reflexivity|].
  destruct (C7_list_ideas_time_range 1000000000 store_week)
    as (_ & _ & _ & _ & _ & _ & H).
  assert (Hl : listing store_week (created_since (1000000000 - timedelta_days 7))
                 [idea_json [] idea_recent])
    by (unfold listing; vm_compute; apply Permutation_refl).
  split.
  - apply (H _ idea_old Hl); [apply list_elem_of_here | reflexivity].
  - apply (H _ idea_recent Hl);
      [apply list_elem_of_further, list_elem_of_here | reflexivity].
Defined.

(** ** Listing the comments of an idea *)



Lemma comments_of_orphan st idea_id :
  comments_refer_to_ideas st -> ~ refers_to_idea st idea_id ->
  comments_of idea_id (comments st) = [].
Proof.
  unfold comments_refer_to_ideas, comments_of. intros Hinv Hno.
  induction (comments st) as [|c cs IH]; cbn; [done|].
  apply Forall_cons in Hinv as [Hc Hcs].
  destruct (String.eqb (c_idea_id c) idea_id) eqn:E; [|by apply IH].
  apply String.eqb_eq in E. subst idea_id. done.
Qed.





(** ** [find_one_and_update] *)

Lemma find_one_and_update_none oid now l :
  List.find (fun d => oid_eqb (i_id d) oid) l = None ->
  find_one_and_update oid now l = (None, l).
Proof.
  induction l as [|a l IH]; cbn; [done|].
  destruct (oid_eqb (i_id a) oid); [done|].
  intros H. by rewrite (IH H).
Qed.

(** When a document has the identifier, the first such document, and it
    alone, is replaced by its update. *)
Lemma find_one_and_update_some oid now l d :
  List.find (fun d => oid_eqb (i_id d) oid) l = Some d ->
  exists l',
    find_one_and_update oid now l = (Some (inc_votes now d), l') /\
    List.find (fun d => oid_eqb (i_id d) oid) l' = Some (inc_votes now d) /\
    (forall o, o <> oid ->
       List.find (fun d => oid_eqb (i_id d) o) l' =
       List.find (fun d => oid_eqb (i_id d) o) l) /\
    map i_id l' = map i_id l.
Proof.
  induction l as [|a l IH]; cbn; [done|].
  destruct (oid_eqb (i_id a) oid) eqn:E.
  - intros [= ->]. eexists. split; [done|]. cbn. rewrite E.
    split; [done|]. split; [|done].
    intros o Ho. apply oid_eqb_eq in E. rewrite E.
    assert (oid_eqb oid o = false) as -> by (apply oid_eqb_neq; congruence).
    done.
  - intros H. destruct (IH H) as (l' & -> & Hf & Hother & Hids).
    eexists. split; [done|]. cbn. rewrite E.
    split; [done|]. split.
    + intros o Ho. destruct (oid_eqb (i_id a) o); [done|]. by apply Hother.
    + by rewrite Hids.
Qed.

(** ** [upvote_idea] *)



(** C4, at its failing input.  [upvote_idea] of [src/backend/main.py] on a
    malformed identifier ends, before any database command, in the
    [ValueError] of [PyObjectId.validate], which nothing catches: the
    answer is a 500, not the 400 of [InvalidId] that [src/main.py] gives on
    the same input. *)
Theorem C4_backend_upvote_malformed_id_unhandled :
  forall now,
    ObjectId_new "not-an-object-id" = None /\
    Backend.upvote_idea "not-an-object-id" now =
      Ret (Unhandled "ValueError" "Invalid ObjectId") /\
    http_status (Unhandled (A := IdeaJson) "ValueError" "Invalid ObjectId") = 500 /\
    Root.upvote_idea "not-an-object-id" now =
      Ret (HTTPException 400 "Invalid idea id").
Proof. intros now. repeat split. Qed.

(** ** [add_comment] on an identifier that no idea has *)




(** Whatever makes [add_comment] fail, the database is left as it was. *)
Lemma add_comment_failure_keeps_store st idea_id now new_id :
  (forall payload r st',
      run (Root.add_comment idea_id payload now new_id) st = (r, st') ->
      is_ok r = false -> st' = st) /\
  (forall payload r st',
      run (Backend.add_comment idea_id payload now new_id) st = (r, st') ->
      is_ok r = false -> st' = st).
Proof.
  split; intros payload r st'.
  - unfold Root.add_comment, Root.create_document_comment.
    destruct (ObjectId_new idea_id) as [[oid|hex]|];
      [|cbn; by intros [= <- <-]|by intros [= <- <-]]. cbn.
    destruct (List.find _ (ideas st)); [|by intros [= <- <-]]. cbn.
    destruct (existsb _ (comments st)) eqn:Ex; [by intros [= <- <-]|]. cbn.
    rewrite (ObjectId_new_str new_id). cbn.
    pose proof (find_comment_app_new (comments st)
                  (mkCommentDoc new_id idea_id (Root.author payload)
                                (Root.content payload) now now)) as Hf.
    cbn in Hf. rewrite (Hf Ex). by intros [= <- <-].
  - unfold Backend.add_comment, Backend.PyObjectId_validate.
    destruct (ObjectId_new idea_id) as [[oid|hex]|];
      [|cbn; by intros [= <- <-]|by intros [= <- <-]]. cbn.
    destruct (List.find _ (ideas st)); [|by intros [= <- <-]]. cbn.
    destruct (existsb _ (comments st)) eqn:Ex; [by intros [= <- <-]|]. cbn.
    pose proof (find_comment_app_new (comments st)
                  (mkCommentDoc new_id idea_id
                                (Backend.strip_opt (Backend.author payload))
                                (strip (Backend.content payload)) now now)) as Hf.
    cbn in Hf. rewrite (Hf Ex). by intros [= <- <-].
Qed.

(** ** [create_idea] *)

(** [create_idea] of [src/backend/main.py] stores the stripped fields with
    no votes and both timestamps now, unless the identifier is taken. *)
Lemma Backend_create_idea_run payload now new_id st :
  let doc := mkIdeaDoc new_id (strip (Backend.title payload))
                       (Backend.strip_opt (Backend.description payload)) 0 now now in
  run (Backend.create_idea payload now new_id) st =
  if existsb (fun d' => oid_eqb (i_id d') new_id) (ideas st)
  then (Unhandled "DuplicateKeyError" "idea", st)
  else (Ok (Backend.serialize_id doc 0), mkStore (ideas st ++ [doc]) (comments st)).
Proof.
  intros doc. unfold Backend.create_idea. cbn.
  destruct (existsb _ (ideas st)) eqn:Ex; [done|]. cbn.
  pose proof (find_idea_app_new (ideas st) doc) as Hf.
  subst doc. cbn in Hf. by rewrite (Hf Ex).
Qed.

(** [create_idea] of [src/main.py] stores the fields as sent. *)
Lemma Root_create_idea_run payload now new_id st :
  let doc := mkIdeaDoc new_id (Root.title payload) (Root.description payload)
                       0 now now in
  run (Root.create_idea payload now new_id) st =
  if existsb (fun d' => oid_eqb (i_id d') new_id) (ideas st)
  then (Unhandled "DuplicateKeyError" "idea", st)
  else (Ok (Root.serialize_doc doc), mkStore (ideas st ++ [doc]) (comments st)).
Proof.
  intros doc. unfold Root.create_idea, Root.create_document_idea. cbn.
  destruct (existsb _ (ideas st)) eqn:Ex; [done|]. cbn.
  rewrite (ObjectId_new_str new_id). cbn.
  pose proof (find_idea_app_new (ideas st) doc) as Hf.
  subst doc. cbn in Hf. by rewrite (Hf Ex).
Qed.

(** In [src/backend/main.py] the record of a created idea has no votes, a
    [comments_count] of 0 and both timestamps equal to the time of
    creation. *)
Lemma Backend_create_idea_fresh payload now new_id st j st' :
  run (Backend.create_idea_request payload now new_id) st = (Ok j, st') ->
  j_votes j = 0 /\ j_comments_count j = Some 0 /\
  j_created_at j = now /\ j_updated_at j = now.
Proof.
  unfold Backend.create_idea_request.
  destruct (Backend.IdeaCreate_errors payload); [|done].
  rewrite Backend_create_idea_run.
  destruct (existsb _ (ideas st)); [done|].
  by intros [= <- <-].
Qed.

(** C9, at its failing input.  The record that [create_idea] of
    [src/main.py] returns is the stored document serialized: it has no
    votes and equal timestamps, but no [comments_count] at all, where the
    claim has [comments_count = 0]. *)
Theorem C9_root_create_idea_without_comments_count :
  forall payload now new_id st j st',
    run (Root.create_idea payload now new_id) st = (Ok j, st') ->
    j_votes j = 0 /\ j_created_at j = j_updated_at j /\
    j_comments_count j = None.
Proof.
  intros payload now new_id st j st'.
  rewrite Root_create_idea_run.
  destruct (existsb _ (ideas st)); [done|].
  by intros [= <- <-].
Qed.

(** [create_idea("Dark mode", "Add a dark theme")] on the ideas A, B, C. *)
Lemma C9_root_create_idea_without_comments_count_witness :
  run (Root.create_idea (Root.mkCreateIdeaRequest "Dark mode" (Some "Add a dark theme"))
         10 oid_N) store_ABC
  = (Ok (mkIdeaJson (oid_str oid_N) "Dark mode" (Some "Add a dark theme") 0 10 10 None),
     mkStore [idea_A; idea_B; idea_C;
              mkIdeaDoc oid_N "Dark mode" (Some "Add a dark theme") 0 10 10] []) /\
  j_comments_count
    (mkIdeaJson (oid_str oid_N) "Dark mode" (Some "Add a dark theme") 0 10 10 None)
  = None.
Proof.
  assert (H : run (Root.create_idea
                     (Root.mkCreateIdeaRequest "Dark mode" (Some "Add a dark theme"))
                     10 oid_N) store_ABC
              = (Ok (mkIdeaJson (oid_str oid_N) "Dark mode" (Some "Add a dark theme")
                                0 10 10 None),
                 mkStore [idea_A; idea_B; idea_C;
                          mkIdeaDoc oid_N "Dark mode" (Some "Add a dark theme") 0 10 10] []))
    by (vm_compute; reflexivity).
  split; [exact H|].
  exact (proj2 (proj2 (C9_root_create_idea_without_comments_count _ _ _ _ _ _ H))).
Defined.

(** ** Validation and trimming in [create_idea] *)

Lemma IdeaCreate_errors_nil payload :
  Backend.IdeaCreate_errors payload = [] <->
  1 <= len (Backend.title payload) <= 200 /\
  (forall d, Backend.description payload = Some d -> len d <= 2000).
Proof.
  unfold Backend.IdeaCreate_errors, Backend.length_between, Backend.opt_max_length.
  destruct (Backend.description payload) as [d|].
  - destruct ((1 <=? len (Backend.title payload)) && (len (Backend.title payload) <=? 200)) eqn:E1;
    destruct (len d <=? 2000) eqn:E2; cbn; split; try done.
    + intros _. split; [lia|]. intros d' [= <-]. lia.
    + intros [_ H]. specialize (H d eq_refl). lia.
    + intros [H _]. lia.
    + intros [H _]. lia.
  - destruct ((1 <=? len (Backend.title payload)) && (len (Backend.title payload) <=? 200)) eqn:E1;
      cbn; split; try done.
    + intros _. split; [lia|done].
    + intros [H _]. lia.
Qed.

Lemma strip_opt_trimmed o d : Backend.strip_opt o = Some d -> trimmed d.
Proof.
  destruct o as [s|]; cbn; [|done].
  destruct (truthy s); [|done]. intros [= <-]. apply strip_trimmed.
Qed.

(** The request is answered with a validation error exactly when the body
    fails [IdeaCreate], and then nothing is stored. *)
Lemma Backend_create_idea_request_invalid payload now new_id st :
  is_validation_error (run (Backend.create_idea_request payload now new_id) st).1 = true
  <-> Backend.IdeaCreate_errors payload <> [].
Proof.
  unfold Backend.create_idea_request.
  destruct (Backend.IdeaCreate_errors payload) eqn:E.
  - rewrite Backend_create_idea_run.
    destruct (existsb _ (ideas st)); cbn; split; done.
  - cbn. split; done.
Qed.

(** [POST /ideas] of [src/backend/main.py].  The request fails with a
    validation error exactly when the title as sent is empty or longer
    than 200 characters or the description is longer than 2000 characters,
    and then stores nothing; a title of length 0 or 201 is rejected and,
    the description being in its bound, one of length 200 is not; and what
    a successful create stores and returns is the title and the
    description stripped, with no whitespace at either end. *)
Theorem Backend_create_idea_validation :
  forall payload now new_id st,
    let res := run (Backend.create_idea_request payload now new_id) st in
    (is_validation_error res.1 = true <->
       len (Backend.title payload) = 0 \/ 200 < len (Backend.title payload) \/
       exists d, Backend.description payload = Some d /\ 2000 < len d) /\
    (is_validation_error res.1 = true -> res.2 = st) /\
    (len (Backend.title payload) = 0 -> is_validation_error res.1 = true) /\
    (len (Backend.title payload) = 201 -> is_validation_error res.1 = true) /\
    (len (Backend.title payload) = 200 ->
       Backend.opt_max_length 2000 (Backend.description payload) = true ->
       is_validation_error res.1 = false) /\
    (forall j, res.1 = Ok j ->
       exists doc,
         res.2 = mkStore (ideas st ++ [doc]) (comments st) /\
         j = Backend.serialize_id doc 0 /\
         i_title doc = strip (Backend.title payload) /\
         i_description doc = Backend.strip_opt (Backend.description payload) /\
         trimmed (i_title doc) /\
         (forall d, i_description doc = Some d -> trimmed d)).
Proof.
  intros payload now new_id st res.
  pose proof (Backend_create_idea_request_invalid payload now new_id st) as Hinv.
  fold res in Hinv.
  pose proof (IdeaCreate_errors_nil payload) as Hnil.
  assert (Hlen : 0 <= len (Backend.title payload)) by (unfold len; lia).
  assert (Hiff : is_validation_error res.1 = true <->
       len (Backend.title payload) = 0 \/ 200 < len (Backend.title payload) \/
       exists d, Backend.description payload = Some d /\ 2000 < len d).
  { rewrite Hinv. split.
    - intros Hne.
      destruct (decide (1 <= len (Backend.title payload) <= 200)) as [Ht|Ht]; [|lia].
      right; right.
      destruct (Backend.description payload) as [d|] eqn:Ed.
      + exists d. split; [done|].
        destruct (decide (len d <= 2000)) as [Hd|Hd]; [|lia].
        exfalso. apply Hne, Hnil. split; [done|]. by intros d' [= <-].
      + exfalso. apply Hne, Hnil. split; done.
    - intros H Hn. apply Hnil in Hn as [Ht Hd].
      destruct H as [H|[H|(d & Hd' & H)]]; [lia..|].
      specialize (Hd d Hd'). lia. }
  split; [exact Hiff|]. split; [|split; [|split; [|split]]].
  - subst res. unfold Backend.create_idea_request.
    destruct (Backend.IdeaCreate_errors payload); [|done].
    rewrite Backend_create_idea_run.
    destruct (existsb _ (ideas st)); done.
  - intros H. apply Hiff. by left.
  - intros H. apply Hiff. right; left. lia.
  - intros H Hd. apply not_true_is_false. rewrite Hinv. intros Hne.
    apply Hne, Hnil. split; [lia|].
    intros d Ed. rewrite Ed in Hd. cbn in Hd. lia.
  - intros j. subst res. unfold Backend.create_idea_request.
    destruct (Backend.IdeaCreate_errors payload); [|done].
    rewrite Backend_create_idea_run.
    destruct (existsb _ (ideas st)); [done|]. cbn.
    intros [= <-]. eexists. split; [done|]. split; [done|]. cbn.
    split; [done|]. split; [done|]. split; [apply strip_trimmed|].
    intros d. apply strip_opt_trimmed.
Qed.

(** A title and a description sent with surrounding blanks are stored
    without them. *)
Lemma Backend_create_idea_validation_witness :
  exists doc,
    (run (Backend.create_idea_request
            (Backend.mkIdeaCreate "  Dark mode " (Some " Add a dark theme  "))
            10 oid_N) store_ABC).2
    = mkStore (ideas store_ABC ++ [doc]) (comments store_ABC) /\
    i_title doc = "Dark mode" /\ i_description doc = Some "Add a dark theme".
Proof.
  destruct (Backend_create_idea_validation
              (Backend.mkIdeaCreate "  Dark mode " (Some " Add a dark theme  "))
              10 oid_N store_ABC) as (_ & _ & _ & _ & _ & H).
  destruct (H (mkIdeaJson (oid_str oid_N) "Dark mode" (Some "Add a dark theme")
                          0 10 10 (Some 0)))
    as (doc & Hst & _ & Ht & Hd & _).
  - vm_compute; reflexivity.
  - exists doc. split; [exact Hst|]. split.
    + rewrite Ht. vm_compute; reflexivity.
    + rewrite Hd. vm_compute; reflexivity.
Defined.

(** C5, at its failing input.  [create_idea] of [src/main.py] validates
    and trims nothing: [CreateIdeaRequest] and [Idea] of [src/schemas.py]
    put no bound on the title, and the fields go to the database as they
    were sent.  Whatever the title and the description, the identifier
    drawn being free, the idea is stored and returned with both as sent:
    no title is refused, the empty one and one of 201 characters
    included, and whitespace around them is kept, where the claim has the
    fields trimmed and these titles refused, as [create_idea] of
    [src/backend/main.py] does. *)
Theorem C5_root_create_idea_unvalidated :
  forall payload now new_id st,
    existsb (fun d' => oid_eqb (i_id d') new_id) (ideas st) = false ->
    let doc := mkIdeaDoc new_id (Root.title payload) (Root.description payload)
                         0 now now in
    run (Root.create_idea payload now new_id) st
    = (Ok (Root.serialize_doc doc), mkStore (ideas st ++ [doc]) (comments st)).
Proof.
  intros payload now new_id st Hfresh doc.
  rewrite Root_create_idea_run. by rewrite Hfresh.
Qed.

(** The empty title with a description in blanks, and a title of 201
    letters: [src/main.py] stores both as sent, [src/backend/main.py]
    refuses both. *)
Lemma C5_root_create_idea_unvalidated_witness :
  run (Root.create_idea (Root.mkCreateIdeaRequest "" (Some " x ")) 10 oid_N) store_ABC
  = (Ok (mkIdeaJson (oid_str oid_N) "" (Some " x ") 0 10 10 None),
     mkStore (ideas store_ABC ++ [mkIdeaDoc oid_N "" (Some " x ") 0 10 10]) []) /\
  run (Root.create_idea (Root.mkCreateIdeaRequest (title_of_length 201) None) 10 oid_N)
      store_ABC
  = (Ok (mkIdeaJson (oid_str oid_N) (title_of_length 201) None 0 10 10 None),
     mkStore (ideas store_ABC ++ [mkIdeaDoc oid_N (title_of_length 201) None 0 10 10])
             []) /\
  run (Backend.create_idea_request (Backend.mkIdeaCreate "" (Some " x ")) 10 oid_N)
      store_ABC
  = (RequestValidationError ["title"], store_ABC) /\
  run (Backend.create_idea_request (Backend.mkIdeaCreate (title_of_length 201) None)
         10 oid_N) store_ABC
  = (RequestValidationError ["title"], store_ABC).
Proof.
  split; [|split; [|split]].
  - apply (C5_root_create_idea_unvalidated
             (Root.mkCreateIdeaRequest "" (Some " x ")) 10 oid_N store_ABC).
    vm_compute; reflexivity.
  - apply (C5_root_create_idea_unvalidated
             (Root.mkCreateIdeaRequest (title_of_length 201) None) 10 oid_N store_ABC).
    vm_compute; reflexivity.
  - vm_compute; reflexivity.
  - vm_compute; reflexivity.
Defined.

(** C10.  In [src/backend/main.py] the length of the title is checked on
    the title as sent: a title of 1 to 200 characters, all of them
    whitespace, passes the validation (no validation error), and the idea
    is stored, and returned, with the empty string as its title. *)
Theorem C10_backend_whitespace_title_accepted :
  forall t desc now new_id st,
    all_space t = true ->
    1 <= len t <= 200 ->
    Backend.opt_max_length 2000 desc = true ->
    existsb (fun d' => oid_eqb (i_id d') new_id) (ideas st) = false ->
    let doc := mkIdeaDoc new_id "" (Backend.strip_opt desc) 0 now now in
    Backend.IdeaCreate_errors (Backend.mkIdeaCreate t desc) = [] /\
    run (Backend.create_idea_request (Backend.mkIdeaCreate t desc) now new_id) st =
    (Ok (Backend.serialize_id doc 0), mkStore (ideas st ++ [doc]) (comments st)).
Proof.
  intros t desc now new_id st Hsp Hlen Hdesc Hfresh doc.
  assert (Hok : Backend.IdeaCreate_errors (Backend.mkIdeaCreate t desc) = []).
  { unfold Backend.IdeaCreate_errors, Backend.length_between. cbn.
    rewrite Hdesc.
    replace ((1 <=? len t) && (len t <=? 200)) with true by lia. done. }
  split; [exact Hok|].
  unfold Backend.create_idea_request. rewrite Hok.
  rewrite Backend_create_idea_run, Hfresh. cbn -[strip].
  subst doc. by rewrite (strip_all_space t Hsp).
Qed.

(** A title of three blanks. *)
Lemma C10_backend_whitespace_title_accepted_witness :
  run (Backend.create_idea_request (Backend.mkIdeaCreate "   " None) 10 oid_N) store_ABC
  = (Ok (mkIdeaJson (oid_str oid_N) "" None 0 10 10 (Some 0)),
     mkStore (ideas store_ABC ++ [mkIdeaDoc oid_N "" None 0 10 10]) []).
Proof.
  apply (C10_backend_whitespace_title_accepted "   " None 10 oid_N store_ABC).
  - reflexivity.
  - vm_compute. split; discriminate.
  - reflexivity.
  - vm_compute; reflexivity.
Defined.

(** ** Concurrent upvotes *)

Lemma filter_id_insert (flags : list bool) (i : nat) :
  flags !! i = Some false ->
  length (List.filter id (<[i := true]> flags)) = S (length (List.filter id flags)).
Proof.
  revert i. induction flags as [|b flags IH]; intros i; [done|].
  destruct i as [|i].
  - intros [= ->]. done.
  - intros H. specialize (IH i H).
    change (<[S i := true]> (b :: flags)) with (b :: <[i := true]> flags).
    destruct b; cbn [List.filter id length]; by rewrite IH.
Qed.

Lemma count_true_insert flags i :
  flags !! i = Some false ->
  count_true (<[i := true]> flags) = count_true flags + 1.
Proof.
  intros H. unfold count_true. rewrite (filter_id_insert _ _ H). lia.
Qed.

Lemma filter_id_all (flags : list bool) :
  Forall (fun b => b = true) flags -> List.filter id flags = flags.
Proof.
  induction 1 as [|b flags Hb _ IH]; [done|].
  rewrite Hb. cbn [List.filter id]. by rewrite IH.
Qed.

Lemma count_true_all flags :
  Forall (fun b => b = true) flags -> count_true flags = Z.of_nat (length flags).
Proof. intros H. unfold count_true. by rewrite filter_id_all. Qed.

Lemma count_true_none flags :
  Forall (fun b => b = false) flags -> count_true flags = 0.
Proof.
  unfold count_true. induction 1 as [|b flags Hb _ IH]; [done|].
  rewrite Hb. exact IH.
Qed.

Lemma insert_at_middle {A} (l1 l2 : list A) (x y : A) :
  <[length l1 := y]> (l1 ++ x :: l2) = l1 ++ y :: l2.
Proof. by rewrite insert_app_r_alt, Nat.sub_diag by lia. Qed.

(** A request that runs alone under the interleaving semantics does what
    [run] says. *)
Lemma run_sched_alone {A} (p : prog A) st :
  exists sched, run_sched sched [p] st = ([Ret (run p st).1], (run p st).2).
Proof.
  revert st. induction p as [a|X c k IH]; intros st.
  - by exists [].
  - cbn [run]. destruct (exec c st) as [x st1] eqn:E.
    destruct (IH x st1) as [sched Hs].
    exists (0%nat :: sched). cbn. by rewrite E.
Qed.

Section ConcurrentUpvotes.
Context (oid : ObjectId) (v0 : Z).
Local Abbreviation upvotes_inv := (upvotes_inv oid v0).

(** The first step of an upvote request is the update, atomic in the
    database; what is left of the request only reads. *)
Lemma upvote_request_step p st v :
  upvote_request oid p -> votes_of oid st = Some v ->
  votes_of oid (step p st).2 = Some (v + 1) /\
  reads_then_ok (step p st).1.
Proof.
  intros (idea_id & now & Hoid & Hp) Hv.
  unfold votes_of, find_idea in Hv.
  destruct (List.find _ (ideas st)) as [d|] eqn:Hf; [|done].
  injection Hv as <-.
  destruct (find_one_and_update_some _ now _ _ Hf) as (l' & Hfou & Hf' & _).
  destruct Hp as [-> | ->].
  - unfold Root.upvote_idea. rewrite Hoid. cbn. rewrite Hfou. cbn.
    split; [|by eexists].
    unfold votes_of, find_idea. cbn. by rewrite Hf'.
  - unfold Backend.upvote_idea, Backend.PyObjectId_validate. rewrite Hoid.
    cbn. rewrite Hfou. cbn.
    split.
    + unfold votes_of, find_idea. cbn. by rewrite Hf'.
    + split; [done|]. intros x. by eexists.
Qed.

(** A request that only reads leaves the database as it is. *)
Lemma reads_then_ok_step (p : prog (outcome IdeaJson)) st :
  reads_then_ok p -> (step p st).2 = st /\ reads_then_ok (step p st).1.
Proof.
  destruct p as [r|X c k]; cbn; [done|].
  intros [Hro Hk]. specialize (Hro st).
  destruct (exec c st) as [x st1]. cbn in *. subst st1. split; [done|apply Hk].
Qed.

(** The invariant holds through every schedule. *)
Lemma run_sched_upvotes_inv sched ps st ps' st' :
  upvotes_inv ps st ->
  run_sched sched ps st = (ps', st') ->
  upvotes_inv ps' st'.
Proof.
  revert ps st. induction sched as [|i sched IH]; intros ps st Hinv; cbn.
  - by intros [= <- <-].
  - destruct (ps !! i) as [p|] eqn:Hi; [|by apply IH].
    destruct (step p st) as [p1 st1] eqn:Hstep.
    apply IH. destruct Hinv as (flags & Hth & Hv).
    destruct (Forall2_lookup_l _ _ _ _ _ Hth Hi) as (b & Hb & Hp).
    destruct b; cbn in Hp.
    + destruct (reads_then_ok_step p st Hp) as [Hst Hp1].
      rewrite Hstep in Hst, Hp1. cbn in Hst, Hp1. subst st1.
      exists flags. split; [|done].
      rewrite <- (list_insert_id flags i true Hb).
      by apply Forall2_insert.
    + destruct (upvote_request_step p st _ Hp Hv) as [Hv1 Hp1].
      rewrite Hstep in Hv1, Hp1. cbn in Hv1, Hp1.
      exists (<[i := true]> flags). split.
      * by apply Forall2_insert.
      * rewrite Hv1, (count_true_insert _ _ Hb). f_equal. lia.
Qed.

(** Once every request has returned, each has made its update and
    returned a record. *)
Lemma upvotes_inv_returned ps st :
  upvotes_inv ps st -> all_returned ps ->
  votes_of oid st = Some (v0 + Z.of_nat (length ps)) /\ all_ok ps.
Proof.
  intros (flags & Hth & Hv) Hret.
  assert (Hall : Forall (fun b => b = true) flags /\ all_ok ps).
  { clear Hv. unfold all_ok. induction Hth as [|p b ps flags Hp Hth IH].
    - by split.
    - apply Forall_cons in Hret as [Hr Hret]. destruct (IH Hret) as [IH1 IH2].
      destruct b; cbn in Hp.
      + split; [by constructor|]. constructor; [|done].
        destruct p as [r|X c k]; [|by destruct Hr]. cbn in Hp.
        destruct Hp as [a ->]. by exists a.
      + exfalso. destruct Hp as (idea_id & now & Hoid & [-> | ->]).
        * unfold Root.upvote_idea in Hr. rewrite Hoid in Hr. by destruct Hr.
        * unfold Backend.upvote_idea, Backend.PyObjectId_validate in Hr.
          rewrite Hoid in Hr. by destruct Hr. }
  destruct Hall as [Hall Hok]. split; [|done].
  rewrite Hv, (count_true_all _ Hall).
  by rewrite (Forall2_length _ _ _ Hth).
Qed.

(** Before any step no request has made its update. *)
Lemma upvotes_inv_init ps st :
  Forall (upvote_request oid) ps -> votes_of oid st = Some v0 ->
  upvotes_inv ps st.
Proof.
  intros Hps Hv. exists (map (fun _ => false) ps). split.
  - induction Hps; constructor; done.
  - rewrite Hv, count_true_none; [f_equal; lia|].
    apply Forall_forall. intros b Hb.
    by apply list_elem_of_fmap in Hb as (? & -> & _).
Qed.

(** An upvote request has returned after two steps. *)
Lemma upvote_request_two_steps p st st1 v :
  upvote_request oid p -> votes_of oid st = Some v ->
  is_Some (returned (step (step p st).1 st1).1).
Proof.
  intros (idea_id & now & Hoid & Hp) Hv.
  unfold votes_of, find_idea in Hv.
  destruct (List.find _ (ideas st)) as [d|] eqn:Hf; [|done].
  destruct (find_one_and_update_some _ now _ _ Hf) as (l' & Hfou & _).
  destruct Hp as [-> | ->].
  - unfold Root.upvote_idea. rewrite Hoid. cbn. rewrite Hfou. by cbn.
  - unfold Backend.upvote_idea, Backend.PyObjectId_validate. rewrite Hoid.
    cbn. rewrite Hfou. by cbn.
Qed.

Lemma run_sched_app {A} s1 s2 (ps : list (prog A)) st :
  run_sched (s1 ++ s2) ps st =
  run_sched s2 (run_sched s1 ps st).1 (run_sched s1 ps st).2.
Proof.
  revert ps st. induction s1 as [|i s1 IH]; intros ps st; cbn; [done|].
  destruct (ps !! i) as [p|]; [|apply IH].
  destruct (step p st). apply IH.
Qed.

Lemma run_sched_length {A} sched (ps : list (prog A)) st :
  length (run_sched sched ps st).1 = length ps.
Proof.
  revert ps st. induction sched as [|i sched IH]; intros ps st; cbn; [done|].
  destruct (ps !! i) as [p|]; [|apply IH].
  destruct (step p st). by rewrite IH, length_insert.
Qed.

(** Some schedule lets every request return: each in turn, two steps
    each. *)
Lemma upvotes_schedule_exists ps st :
  Forall (upvote_request oid) ps -> is_Some (votes_of oid st) ->
  exists sched, all_returned (run_sched sched ps st).1.
Proof.
  intros Hps Hv.
  assert (H : forall ps0 st0,
             all_returned ps0 -> is_Some (votes_of oid st0) ->
             exists sched, all_returned (run_sched sched (ps0 ++ ps) st0).1).
  { clear st Hv. induction Hps as [|p ps Hp Hps IH]; intros ps0 st0 Hret [v Hv].
    - exists []. cbn. by rewrite app_nil_r.
    - destruct (upvote_request_step p st0 v Hp Hv) as [Hv1 Hro].
      destruct (step p st0) as [p1 st1] eqn:E1. cbn in Hv1, Hro.
      destruct (reads_then_ok_step p1 st1 Hro) as [Hst2 _].
      destruct (step p1 st1) as [p2 st2] eqn:E2. cbn in Hst2. subst st2.
      assert (Hr2 : is_Some (returned p2)).
      { pose proof (upvote_request_two_steps p st0 st1 v Hp Hv) as H2.
        rewrite E1 in H2. cbn [fst] in H2. by rewrite E2 in H2. }
      destruct (IH (ps0 ++ [p2]) st1) as [sched Hsched].
      { apply Forall_app. split; [done|]. by constructor. }
      { by eexists. }
      exists (length ps0 :: length ps0 :: sched). cbn.
      rewrite list_lookup_middle by done. rewrite E1.
      rewrite insert_at_middle.
      rewrite list_lookup_middle by done. rewrite E2.
      rewrite insert_at_middle.
      by rewrite <- app_assoc in Hsched. }
  destruct (H [] st) as [sched Hs]; [constructor|done|].
  by exists sched.
Qed.
End ConcurrentUpvotes.

(** C3.  Let any number [N] of upvote requests for one existing idea, of
    either service, run at once.  Each makes its increment in one step,
    its first, which is one command of the database; so under every
    schedule that lets all of them return, each returns a record and the
    idea ends with the votes it had plus [N], that is exactly [N] for an
    idea that had none; and such schedules exist. *)
Theorem C3_concurrent_upvotes_not_lost :
  forall (N : nat) st oid d (ps : list (prog (outcome IdeaJson))),
    find_idea oid st = Some d ->
    length ps = N ->
    Forall (upvote_request oid) ps ->
    (forall p st0 v, p ∈ ps -> votes_of oid st0 = Some v ->
        votes_of oid (step p st0).2 = Some (v + 1)) /\
    (forall sched ps' st',
        run_sched sched ps st = (ps', st') ->
        all_returned ps' ->
        all_ok ps' /\
        votes_of oid st' = Some (i_votes d + Z.of_nat N) /\
        (i_votes d = 0 -> votes_of oid st' = Some (Z.of_nat N))) /\
    (exists sched, all_returned (run_sched sched ps st).1).
Proof.
  intros N st oid d ps Hd HN Hps.
  assert (Hv : votes_of oid st = Some (i_votes d)).
  { unfold votes_of. by rewrite Hd. }
  split; [|split].
  - intros p st0 v Hp Hv0. rewrite Forall_forall in Hps.
    by apply (upvote_request_step oid p st0 v (Hps p Hp) Hv0).
  - intros sched ps' st' Hrun Hret.
    pose proof (upvotes_inv_init oid (i_votes d) ps st Hps Hv) as Hinv.
    pose proof (run_sched_upvotes_inv oid _ sched ps st ps' st' Hinv Hrun) as Hinv'.
    destruct (upvotes_inv_returned oid _ ps' st' Hinv' Hret) as [Hv' Hok].
    assert (Hlen : length ps' = N).
    { pose proof (run_sched_length sched ps st) as Hl.
      rewrite Hrun in Hl. cbn in Hl. lia. }
    rewrite Hlen in Hv'. split; [done|]. split; [done|].
    intros H0. by rewrite Hv', H0.
  - apply (upvotes_schedule_exists oid ps st Hps). rewrite Hv. by eexists.
Qed.

(** Three upvotes of the idea created six days ago, which has no votes:
    two through [src/backend/main.py], one of them spelling the identifier
    in upper case, and one through [src/main.py], their steps interleaved.
    The idea ends with three votes. *)
Lemma C3_concurrent_upvotes_not_lost_witness :
  let ps := [Backend.upvote_idea (oid_str oid_B) 11;
             Root.upvote_idea (oid_str oid_B) 12;
             Backend.upvote_idea "65A000000000000000000002" 13] in
  let sched := [2; 0; 1; 0; 2]%nat in
  all_ok (run_sched sched ps store_week).1 /\
  votes_of oid_B (run_sched sched ps store_week).2 = Some 3.
Proof.
  intros ps sched.
  destruct (C3_concurrent_upvotes_not_lost 3 store_week oid_B idea_recent ps)
    as (_ & H & _).
  - vm_compute; reflexivity.
  - reflexivity.
  - repeat constructor.
    + exists (oid_str oid_B), 11. split; [vm_compute; reflexivity | by right].
    + exists (oid_str oid_B), 12. split; [vm_compute; reflexivity | by left].
    + exists "65A000000000000000000002", 13.
      split; [vm_compute; reflexivity | by right].
  - destruct (H sched (run_sched sched ps store_week).1
                (run_sched sched ps store_week).2) as (Hok & _ & Hv).
    + by destruct (run_sched sched ps store_week).
    + vm_compute. repeat constructor; by eexists.
    + split; [exact Hok | by apply Hv].
Defined.



(** ** Every comment is on an existing idea *)

Lemma find_app_l {A} (f : A -> bool) (l l' : list A) (x : A) :
  List.find f l = Some x -> List.find f (l ++ l') = Some x.
Proof.
  induction l as [|a l IH]; cbn; [done|].
  destruct (f a); [done|apply IH].
Qed.







(** ** The handlers on the example data *)



(** [create_idea("Dark mode", "Add a dark theme")] through
    [src/backend/main.py]. *)
Lemma Backend_create_idea_fresh_witness :
  run (Backend.create_idea_request
         (Backend.mkIdeaCreate "Dark mode" (Some "Add a dark theme")) 10 oid_N) store_ABC
  = (Ok (mkIdeaJson (oid_str oid_N) "Dark mode" (Some "Add a dark theme") 0 10 10 (Some 0)),
     mkStore [idea_A; idea_B; idea_C;
              mkIdeaDoc oid_N "Dark mode" (Some "Add a dark theme") 0 10 10] []) /\
  (j_votes (mkIdeaJson (oid_str oid_N) "Dark mode" (Some "Add a dark theme") 0 10 10 (Some 0)) = 0 /\
   j_comments_count
     (mkIdeaJson (oid_str oid_N) "Dark mode" (Some "Add a dark theme") 0 10 10 (Some 0))
   = Some 0 /\
   j_created_at
     (mkIdeaJson (oid_str oid_N) "Dark mode" (Some "Add a dark theme") 0 10 10 (Some 0))
   = 10 /\
   j_updated_at
     (mkIdeaJson (oid_str oid_N) "Dark mode" (Some "Add a dark theme") 0 10 10 (Some 0))
   = 10).
Proof.
  assert (H : run (Backend.create_idea_request
                     (Backend.mkIdeaCreate "Dark mode" (Some "Add a dark theme"))
                     10 oid_N) store_ABC
              = (Ok (mkIdeaJson (oid_str oid_N) "Dark mode" (Some "Add a dark theme")
                                0 10 10 (Some 0)),
                 mkStore [idea_A; idea_B; idea_C;
                          mkIdeaDoc oid_N "Dark mode" (Some "Add a dark theme") 0 10 10] []))
    by (vm_compute; reflexivity).
  split; [exact H|].
  exact (Backend_create_idea_fresh _ _ _ _ _ _ H).
Defined.


(** ** What no request ever does *)

Lemma idea_evolves_refl d : idea_evolves d d.
Proof. unfold idea_evolves. repeat split; lia. Qed.

Lemma ideas_evolve_refl st : ideas_evolve st st.
Proof. intros oid d Hd. exists d. split; [done|apply idea_evolves_refl]. Qed.

Lemma ideas_evolve_trans st1 st2 st3 :
  ideas_evolve st1 st2 -> ideas_evolve st2 st3 -> ideas_evolve st1 st3.
Proof.
  intros H12 H23 oid d Hd.
  destruct (H12 oid d Hd) as (d2 & Hd2 & E2).
  destruct (H23 oid d2 Hd2) as (d3 & Hd3 & E3).
  exists d3. split; [done|].
  unfold idea_evolves in *. destruct E2 as (?&?&?&?&?), E3 as (?&?&?&?&?).
  repeat split; try congruence. lia.
Qed.

Lemma exec_ideas_evolve {X} (c : cmd X) st : ideas_evolve st (exec c st).2.
Proof.
  destruct c as [since|[oid|hex]|d|[oid|hex] now|ids|s|s|[oid|hex]|d]; cbn;
    try apply ideas_evolve_refl.
  - destruct (existsb _ (ideas st)); cbn; [apply ideas_evolve_refl|].
    intros o d0 Hd. exists d0. split; [|apply idea_evolves_refl].
    unfold find_idea in *. cbn. by apply find_app_l.
  - intros o d0 Hd. unfold find_idea in *.
    destruct (List.find (fun d => oid_eqb (i_id d) oid) (ideas st)) as [d|] eqn:Hf.
    + destruct (find_one_and_update_some _ now _ _ Hf) as (l' & -> & Hf' & Hother & _).
      cbn. destruct (decide (o = oid)) as [->|Hne].
      * rewrite Hf in Hd. injection Hd as <-.
        exists (inc_votes now d). split; [done|].
        unfold idea_evolves, inc_votes. cbn. repeat split; lia.
      * exists d0. rewrite (Hother o Hne). split; [done|apply idea_evolves_refl].
    + rewrite (find_one_and_update_none _ now _ Hf). cbn.
      exists d0. split; [done|apply idea_evolves_refl].
  - destruct (existsb _ (comments st)); [apply ideas_evolve_refl|].
    intros o d0 Hd. exists d0. split; [exact Hd|apply idea_evolves_refl].
Qed.

Lemma comments_kept_refl st : comments_kept st st.
Proof. exists []. by rewrite app_nil_r. Qed.

Lemma comments_kept_trans st1 st2 st3 :
  comments_kept st1 st2 -> comments_kept st2 st3 -> comments_kept st1 st3.
Proof.
  intros [n1 H1] [n2 H2]. exists (n1 ++ n2). by rewrite H2, H1, app_assoc.
Qed.

Lemma exec_comments_kept {X} (c : cmd X) st : comments_kept st (exec c st).2.
Proof.
  destruct c as [since|[oid|hex]|d|[oid|hex] now|ids|s|s|[oid|hex]|d]; cbn;
    try apply comments_kept_refl.
  - destruct (existsb _ (ideas st)); [apply comments_kept_refl|].
    exists []. cbn. by rewrite app_nil_r.
  - destruct (find_one_and_update oid now (ideas st)).
    exists []. cbn. by rewrite app_nil_r.
  - destruct (existsb _ (comments st)); [apply comments_kept_refl|]. by exists [d].
Qed.

Lemma existsb_oid_false {A} (f : A -> ObjectId) (o : ObjectId) (l : list A) :
  existsb (fun a => oid_eqb (f a) o) l = false -> o ∉ map f l.
Proof.
  induction l as [|a l IH]; cbn; [by intros _ ?%elem_of_nil|].
  intros H. apply orb_false_elim in H as [Ha Hl].
  apply not_elem_of_cons. split; [|by apply IH].
  apply oid_eqb_neq in Ha. congruence.
Qed.

Lemma find_one_and_update_ids oid now l :
  map i_id (find_one_and_update oid now l).2 = map i_id l.
Proof.
  induction l as [|d l IH]; [done|]. cbn.
  destruct (oid_eqb (i_id d) oid); [done|].
  destruct (find_one_and_update oid now l) as [r l0]. cbn in *. by f_equal.
Qed.

Lemma exec_unique_ids {X} (c : cmd X) st : unique_ids st -> unique_ids (exec c st).2.
Proof.
  intros [Hi Hc].
  destruct c as [since|[oid|hex]|d|[oid|hex] now|ids|s|s|[oid|hex]|d]; cbn; try done.
  - destruct (existsb _ (ideas st)) eqn:Ex; [done|]. split; [|done]. cbn.
    rewrite map_app. apply NoDup_app. split; [done|]. split; [|apply NoDup_singleton].
    intros o Ho Hd. cbn in Hd. apply list_elem_of_singleton in Hd as ->.
    by apply (existsb_oid_false i_id (i_id d) (ideas st) Ex).
  - pose proof (find_one_and_update_ids oid now (ideas st)) as Hids.
    destruct (find_one_and_update oid now (ideas st)) as [r l]. cbn in *.
    split; [cbn; by rewrite Hids|done].
  - destruct (existsb _ (comments st)) eqn:Ex; [done|]. split; [done|]. cbn.
    rewrite map_app. apply NoDup_app. split; [done|]. split; [|apply NoDup_singleton].
    intros o Ho Hd. cbn in Hd. apply list_elem_of_singleton in Hd as ->.
    by apply (existsb_oid_false c_id (c_id d) (comments st) Ex).
Qed.

(** A property of the database that is reflexive, transitive and holds
    across every command holds across every handler and every schedule. *)
Section AcrossRequests.
Context (R : Store -> Store -> Prop).
Hypothesis R_refl : forall st, R st st.
Hypothesis R_trans : forall st1 st2 st3, R st1 st2 -> R st2 st3 -> R st1 st3.
Hypothesis R_exec : forall X (c : cmd X) st, R st (exec c st).2.

Lemma across_run {A} (p : prog A) st : R st (run p st).2.
Proof.
  revert st. induction p as [a|X c k IH]; intros st; cbn; [done|].
  pose proof (R_exec X c st) as H.
  destruct (exec c st) as [x st1]. cbn in H. eauto.
Qed.

Lemma across_step {A} (p : prog A) st : R st (step p st).2.
Proof.
  destruct p as [a|X c k]; cbn; [done|].
  pose proof (R_exec X c st) as H.
  by destruct (exec c st) as [x st1].
Qed.

Lemma across_run_sched {A} sched (ps : list (prog A)) st :
  R st (run_sched sched ps st).2.
Proof.
  revert ps st. induction sched as [|i sched IH]; intros ps st; cbn; [done|].
  destruct (ps !! i) as [p|]; [|apply IH].
  pose proof (across_step p st) as H.
  destruct (step p st) as [p1 st1]. cbn in H. eauto.
Qed.
End AcrossRequests.

(** Whatever requests run, alone or interleaved in any schedule, every
    idea stays in the database with its identifier, title, description and
    time of creation, and its votes never go down. *)
Theorem ideas_never_lost_or_rewritten :
  forall (A : Type) (sched : list nat) (ps : list (prog A)) (p : prog A) (st : Store),
    ideas_evolve st (run p st).2 /\
    ideas_evolve st (run_sched sched ps st).2.
Proof.
  intros A sched ps p st. split.
  - apply (across_run ideas_evolve ideas_evolve_refl ideas_evolve_trans
             (@exec_ideas_evolve)).
  - apply (across_run_sched ideas_evolve ideas_evolve_refl ideas_evolve_trans
             (@exec_ideas_evolve)).
Qed.

(** Whatever requests run, alone or interleaved, the comments there are
    stay as they are and in their order: requests only add comments. *)
Theorem comments_never_lost_or_rewritten :
  forall (A : Type) (sched : list nat) (ps : list (prog A)) (p : prog A) (st : Store),
    comments_kept st (run p st).2 /\
    comments_kept st (run_sched sched ps st).2.
Proof.
  intros A sched ps p st. split.
  - apply (across_run comments_kept comments_kept_refl comments_kept_trans
             (@exec_comments_kept)).
  - apply (across_run_sched comments_kept comments_kept_refl comments_kept_trans
             (@exec_comments_kept)).
Qed.

Lemma unique_ids_empty : unique_ids (mkStore [] []).
Proof. split; constructor. Qed.

Lemma unique_ids_store_ABC_commented : unique_ids store_ABC_commented.
Proof. split; apply (bool_decide_unpack _); vm_compute; exact I. Qed.

(** The database starts with no document; whatever requests run, alone or
    interleaved, no two ideas ever share an identifier, nor two comments:
    an insertion under a taken identifier is refused and an update keeps
    the identifier. *)
Theorem identifiers_stay_unique :
  forall (A : Type) (sched : list nat) (ps : list (prog A)) (p : prog A) (st : Store),
    unique_ids st ->
    unique_ids (run p st).2 /\ unique_ids (run_sched sched ps st).2.
Proof.
  intros A sched ps p st Hu. split.
  - apply (across_run (fun s s' => unique_ids s -> unique_ids s')); auto.
    intros X c s. apply exec_unique_ids.
  - apply (across_run_sched (fun s s' => unique_ids s -> unique_ids s')); auto.
    intros X c s. apply exec_unique_ids.
Qed.

(** Two upvotes and a new comment, interleaved, on the ideas A, B and C
    with their one comment. *)
Lemma identifiers_stay_unique_witness :
  unique_ids store_ABC_commented /\
  unique_ids
    (run_sched [1; 0; 1; 0; 1; 0]%nat
       [Backend.upvote_idea (oid_str oid_B) 11;
        Backend.create_idea_request (Backend.mkIdeaCreate "Dark mode" None) 12 oid_N]
       store_ABC_commented).2.
Proof.
  split; [exact unique_ids_store_ABC_commented|].
  apply (identifiers_stay_unique _ _ _ (Ret (Ok (Root.serialize_doc idea_A)))
           store_ABC_commented unique_ids_store_ABC_commented).
Defined.

(** With distinct identifiers in the database, the ideas of a listing have
    distinct identifiers: no idea is listed twice. *)
Theorem list_ideas_ids_distinct :
  forall st, unique_ids st ->
    (forall range sort now, exists l,
        run (Root.list_ideas range sort now) st = (Ok l, st) /\ NoDup (map j_id l)) /\
    (forall range sort now, exists l,
        run (Backend.list_ideas range sort now) st = (Ok l, st) /\ NoDup (map j_id l)).
Proof.
  intros st [Hu _].
  assert (Hnd : forall keep,
             NoDup (map j_id (map (idea_json (comments st))
                                  (List.filter keep (ideas st))))).
  { intros keep. rewrite map_map. cbn.
    change (fun x => oid_str (i_id x)) with (oid_str ∘ i_id).
    rewrite <- (map_map i_id oid_str).
    apply NoDup_fmap_2; [intros a b; apply oid_str_inj|].
    revert Hu. generalize (ideas st). intros l.
    induction l as [|d l IH]; cbn; intros Hl; [constructor|].
    apply NoDup_cons in Hl as [Hd Hl].
    destruct (keep d); [|by apply IH]. cbn.
    apply NoDup_cons. split; [|by apply IH].
    intros Hin. apply Hd. apply list_elem_of_fmap in Hin as (d' & -> & Hd').
    apply list_elem_of_fmap. exists d'. split; [done|].
    apply list_elem_of_In, filter_In in Hd' as [Hd' _]. by apply list_elem_of_In. }
  split; intros range sort now.
  - destruct (Root_list_ideas_perm range sort now st) as (l & Hl & Hp).
    exists l. split; [done|]. rewrite Hp. apply Hnd.
  - destruct (Backend_list_ideas_perm range sort now st) as (l & Hl & Hp).
    exists l. split; [done|]. rewrite Hp. apply Hnd.
Qed.

(** The listing of A, B and C holds three distinct identifiers. *)
Lemma list_ideas_ids_distinct_witness :
  exists l,
    run (Backend.list_ideas Backend.all Backend.comments 20) store_ABC_commented
    = (Ok l, store_ABC_commented) /\ NoDup (map j_id l).
Proof.
  destruct (list_ideas_ids_distinct store_ABC_commented unique_ids_store_ABC_commented)
    as [_ H].
  apply H.
Defined.

(** ** Stored documents against the schema modules *)

Lemma len_append (a b : string) : len (a +:+ b) = len a + len b.
Proof.
  assert (H : String.length (a +:+ b) = (String.length a + String.length b)%nat).
  { induction a as [|c a IH]; [done|].
    change (S (String.length (a +:+ b)) = S (String.length a + String.length b)).
    by rewrite IH. }
  unfold len. rewrite H. lia.
Qed.

Lemma all_space_append (a b : string) :
  all_space (a +:+ b) = all_space a && all_space b.
Proof.
  unfold all_space. induction a as [|c a IH]; [done|].
  change (is_space c && forallb is_space (list_ascii_of_string (a +:+ b)) =
          is_space c && forallb is_space (list_ascii_of_string a)
          && forallb is_space (list_ascii_of_string b)).
  rewrite IH. by rewrite andb_assoc.
Qed.

Lemma len_nonneg s : 0 <= len s.
Proof. unfold len. lia. Qed.

(** Stripping never lengthens a string. *)
Lemma len_strip_le s : len (strip s) <= len s.
Proof.
  destruct (strip_decomp s) as (l & r & Hs & _).
  rewrite Hs at 2. rewrite !len_append.
  pose proof (len_nonneg l). pose proof (len_nonneg r). lia.
Qed.

(** A string strips to the empty string exactly when it is all whitespace. *)
Lemma strip_empty_iff s : strip s = "" <-> all_space s = true.
Proof.
  split; [|apply strip_all_space].
  intros He. destruct (strip_decomp s) as (l & r & Hs & Hl & Hr).
  rewrite Hs, He, !all_space_append, Hl, Hr. done.
Qed.

Lemma len_zero_iff s : len s = 0 <-> s = "".
Proof. unfold len. destruct s; cbn; split; intros; (done || lia). Qed.

Lemma strip_opt_len_le hi o :
  Backend.opt_max_length hi o = true ->
  Backend.opt_max_length hi (Backend.strip_opt o) = true.
Proof.
  destruct o as [s|]; cbn; [|done].
  destruct (truthy s); cbn; [|done].
  pose proof (len_strip_le s). lia.
Qed.

(** What [create_idea] of [src/backend/main.py] stores from a valid body
    meets [Idea] of [src/backend/schemas.py] exactly when the title as sent
    has a character that is no whitespace: the description and the upper
    bound of the title always hold, the lower bound fails for a title of
    whitespace, stored empty. *)
Theorem Backend_stored_idea_against_schema :
  forall payload now new_id st j st',
    Backend.IdeaCreate_errors payload = [] ->
    run (Backend.create_idea_request payload now new_id) st = (Ok j, st') ->
    exists doc,
      ideas st' = ideas st ++ [doc] /\
      Backend.opt_max_length 2000 (i_description doc) = true /\
      len (i_title doc) <= 200 /\
      (BackendSchemas.Idea_errors doc = [] <-> all_space (Backend.title payload) = false).
Proof.
  intros payload now new_id st j st' Hv.
  unfold Backend.create_idea_request. rewrite Hv, Backend_create_idea_run.
  destruct (existsb _ (ideas st)); [done|]. intros [= <- <-].
  eexists. split; [reflexivity|]. cbn -[strip].
  apply IdeaCreate_errors_nil in Hv as [Ht Hd].
  assert (Hdesc : Backend.opt_max_length 2000
                    (Backend.strip_opt (Backend.description payload)) = true).
  { apply strip_opt_len_le. unfold Backend.opt_max_length.
    destruct (Backend.description payload) as [d|]; [|done].
    specialize (Hd d eq_refl). lia. }
  pose proof (len_strip_le (Backend.title payload)) as Hle.
  pose proof (len_nonneg (strip (Backend.title payload))) as H0.
  split; [done|]. split; [lia|].
  unfold BackendSchemas.Idea_errors, Backend.length_between. cbn -[strip].
  rewrite Hdesc, app_nil_r.
  pose proof (strip_empty_iff (Backend.title payload)) as He.
  pose proof (len_zero_iff (strip (Backend.title payload))) as Hz.
  destruct (all_space (Backend.title payload)) eqn:Hsp.
  - assert (len (strip (Backend.title payload)) = 0) as -> by (apply Hz, He; done).
    cbn. split; done.
  - assert (len (strip (Backend.title payload)) <> 0).
    { intros H. apply Hz, He in H. done. }
    replace ((1 <=? len (strip (Backend.title payload)))
             && (len (strip (Backend.title payload)) <=? 200)) with true by lia.
    split; done.
Qed.

(** A title of three blanks is taken and stored empty, which the schema of
    stored ideas refuses. *)
Lemma Backend_stored_idea_against_schema_witness :
  exists doc,
    ideas (mkStore (ideas store_ABC ++ [mkIdeaDoc oid_N "" None 0 10 10]) [])
    = ideas store_ABC ++ [doc] /\
    Backend.opt_max_length 2000 (i_description doc) = true /\
    len (i_title doc) <= 200 /\
    (BackendSchemas.Idea_errors doc = [] <-> all_space "   " = false).
Proof.
  apply (Backend_stored_idea_against_schema (Backend.mkIdeaCreate "   " None) 10 oid_N
           store_ABC (mkIdeaJson (oid_str oid_N) "" None 0 10 10 (Some 0))).
  - reflexivity.
  - vm_compute; reflexivity.
Defined.

(** ** [add_comment] of [src/backend/main.py] *)






(** ** Requests one after the other *)

Lemma find_one_and_update_map oid now l :
  NoDup (map i_id l) ->
  (find_one_and_update oid now l).2 =
  map (fun d => if oid_eqb (i_id d) oid then inc_votes now d else d) l.
Proof.
  induction l as [|d l IH]; [done|]. cbn. intros Hnd.
  apply NoDup_cons in Hnd as [Hd Hl].
  destruct (oid_eqb (i_id d) oid) eqn:E.
  - cbn. f_equal. apply oid_eqb_eq in E. subst oid.
    clear IH Hl. induction l as [|a l IH]; [done|]. cbn.
    apply not_elem_of_cons in Hd as [Ha Hd].
    assert (oid_eqb (i_id a) (i_id d) = false) as -> by (apply oid_eqb_neq; congruence).
    f_equal. by apply IH.
  - specialize (IH Hl). destruct (find_one_and_update oid now l) as [r l0].
    cbn in *. by f_equal.
Qed.

Lemma idea_json_upvoted cs oid now d :
  idea_json cs (if oid_eqb (i_id d) oid then inc_votes now d else d) =
  upvoted oid now (idea_json cs d).
Proof.
  unfold upvoted, idea_json, oid_eqb. cbn.
  by destruct (String.eqb (oid_str (i_id d)) (oid_str oid)).
Qed.

Lemma filter_in_range_upvoted since oid now l :
  List.filter (in_range since)
    (map (fun d => if oid_eqb (i_id d) oid then inc_votes now d else d) l) =
  map (fun d => if oid_eqb (i_id d) oid then inc_votes now d else d)
      (List.filter (in_range since) l).
Proof.
  rewrite filter_map_comm. f_equal. apply filter_ext. intros d.
  by destruct since, (oid_eqb (i_id d) oid).
Qed.

Lemma listing_after_upvote st oid now since :
  unique_ids st ->
  map (idea_json (comments st))
      (List.filter (in_range since) (find_one_and_update oid now (ideas st)).2) =
  map (upvoted oid now)
      (map (idea_json (comments st)) (List.filter (in_range since) (ideas st))).
Proof.
  intros [Hu _]. rewrite (find_one_and_update_map _ _ _ Hu).
  rewrite filter_in_range_upvoted, !map_map.
  apply map_ext. intros d. apply idea_json_upvoted.
Qed.

Lemma upvote_store st idea_id oid now :
  ObjectId_new idea_id = Some (Oid12 oid) ->
  (run (Root.upvote_idea idea_id now) st).2 =
    mkStore (find_one_and_update oid now (ideas st)).2 (comments st) /\
  (run (Backend.upvote_idea idea_id now) st).2 =
    mkStore (find_one_and_update oid now (ideas st)).2 (comments st).
Proof.
  intros Hoid.
  unfold Root.upvote_idea, Backend.upvote_idea, Backend.PyObjectId_validate.
  rewrite Hoid. cbn.
  destruct (find_one_and_update oid now (ideas st)) as [[d|] l]; done.
Qed.

(** An upvote and then a listing, in either service, identifiers being
    distinct: the listing is the one from before the upvote with one more
    vote and the new [updated_at] on the upvoted idea, and nothing else
    changed; the comment counts are as before. *)
Theorem list_ideas_after_upvote :
  forall st idea_id oid now,
    unique_ids st ->
    ObjectId_new idea_id = Some (Oid12 oid) ->
    (forall range sort now', exists l l',
        run (Root.list_ideas range sort now') st = (Ok l, st) /\
        run (Root.list_ideas range sort now')
            (run (Root.upvote_idea idea_id now) st).2
        = (Ok l', (run (Root.upvote_idea idea_id now) st).2) /\
        Permutation l' (map (upvoted oid now) l)) /\
    (forall range sort now', exists l l',
        run (Backend.list_ideas range sort now') st = (Ok l, st) /\
        run (Backend.list_ideas range sort now')
            (run (Backend.upvote_idea idea_id now) st).2
        = (Ok l', (run (Backend.upvote_idea idea_id now) st).2) /\
        Permutation l' (map (upvoted oid now) l)).
Proof.
  intros st idea_id oid now Hu Hoid.
  destruct (upvote_store st idea_id oid now Hoid) as [HR HB].
  split; intros range sort now'.
  - rewrite HR.
    destruct (Root_list_ideas_perm range sort now' st) as (l & Hl & Hp).
    destruct (Root_list_ideas_perm range sort now'
                (mkStore (find_one_and_update oid now (ideas st)).2 (comments st)))
      as (l' & Hl' & Hp').
    exists l, l'. split; [done|]. split; [done|].
    rewrite Hp'. cbn. rewrite (listing_after_upvote st oid now _ Hu).
    by rewrite Hp.
  - rewrite HB.
    destruct (Backend_list_ideas_perm range sort now' st) as (l & Hl & Hp).
    destruct (Backend_list_ideas_perm range sort now'
                (mkStore (find_one_and_update oid now (ideas st)).2 (comments st)))
      as (l' & Hl' & Hp').
    exists l, l'. split; [done|]. split; [done|].
    rewrite Hp'. cbn. rewrite (listing_after_upvote st oid now _ Hu).
    by rewrite Hp.
Qed.

(** Upvoting B among A, B and C and listing by votes: B now leads with six
    votes. *)
Lemma list_ideas_after_upvote_witness :
  exists l l',
    run (Backend.list_ideas Backend.all Backend.votes 30) store_ABC_commented
    = (Ok l, store_ABC_commented) /\
    run (Backend.list_ideas Backend.all Backend.votes 30)
        (run (Backend.upvote_idea (oid_str oid_B) 20) store_ABC_commented).2
    = (Ok l', (run (Backend.upvote_idea (oid_str oid_B) 20) store_ABC_commented).2) /\
    Permutation l' (map (upvoted oid_B 20) l).
Proof.
  destruct (list_ideas_after_upvote store_ABC_commented (oid_str oid_B) oid_B 20
              unique_ids_store_ABC_commented (ObjectId_new_str oid_B)) as [_ H].
  apply H.
Defined.

Lemma comment_count_fresh st o :
  comments_refer_to_ideas st -> find_idea o st = None ->
  comment_count (oid_str o) (comments st) = 0.
Proof.
  intros Hinv Hno. unfold comment_count.
  rewrite (comments_of_orphan st (oid_str o) Hinv); [done|].
  intros (o' & Ho' & Hs). rewrite ObjectId_new_str in Ho'. injection Ho' as <-.
  rewrite Hno in Hs. by destruct Hs.
Qed.

Lemma existsb_find_none (l : list IdeaDoc) o :
  existsb (fun d => oid_eqb (i_id d) o) l = false ->
  List.find (fun d => oid_eqb (i_id d) o) l = None.
Proof.
  induction l as [|a l IH]; [done|]. cbn.
  intros H. apply orb_false_elim in H as [-> H]. by apply IH.
Qed.

(** A create and then a listing in [src/backend/main.py], every comment
    being on an idea of the database: the listing is the one from before
    with, when its time of creation is in the range asked for, the record
    that the create returned, which counts no comment. *)
Theorem Backend_list_ideas_after_create :
  forall st payload now new_id j st',
    comments_refer_to_ideas st ->
    run (Backend.create_idea_request payload now new_id) st = (Ok j, st') ->
    j_comments_count j = Some 0 /\
    forall range sort now', exists l l',
      run (Backend.list_ideas range sort now') st = (Ok l, st) /\
      run (Backend.list_ideas range sort now') st' = (Ok l', st') /\
      Permutation l'
        (l ++ if in_range (Backend.since range now')
                   (mkIdeaDoc new_id (strip (Backend.title payload))
                      (Backend.strip_opt (Backend.description payload)) 0 now now)
              then [j] else []).
Proof.
  intros st payload now new_id j st' Hinv.
  unfold Backend.create_idea_request.
  destruct (Backend.IdeaCreate_errors payload); [|done].
  rewrite Backend_create_idea_run.
  destruct (existsb _ (ideas st)) eqn:Ex; [done|].
  intros [= <- <-]. split; [done|]. intros range sort now'.
  set (doc := mkIdeaDoc new_id (strip (Backend.title payload))
                (Backend.strip_opt (Backend.description payload)) 0 now now).
  destruct (Backend_list_ideas_perm range sort now' st) as (l & Hl & Hp).
  destruct (Backend_list_ideas_perm range sort now'
              (mkStore (ideas st ++ [doc]) (comments st))) as (l' & Hl' & Hp').
  exists l, l'. split; [done|]. split; [done|].
  rewrite Hp', Hp. cbn [ideas comments].
  rewrite List.filter_app, map_app. apply Permutation_app_head.
  cbn [List.filter]. destruct (in_range (Backend.since range now') doc); [|done].
  cbn. unfold idea_json, Backend.serialize_id. cbn -[strip].
  rewrite (comment_count_fresh st new_id Hinv); [done|].
  by apply existsb_find_none.
Qed.

(** Creating "Dark mode" beside A, B and C, which have one comment: the
    week's listing at time 20 gains the new record. *)
Lemma Backend_list_ideas_after_create_witness :
  comments_refer_to_ideas store_ABC_commented /\
  exists l l',
    run (Backend.list_ideas Backend.week Backend.votes 20) store_ABC_commented
    = (Ok l, store_ABC_commented) /\
    run (Backend.list_ideas Backend.week Backend.votes 20)
        (mkStore (ideas store_ABC_commented ++ [mkIdeaDoc oid_D "Dark mode" None 0 10 10])
                 (comments store_ABC_commented))
    = (Ok l', mkStore (ideas store_ABC_commented
                       ++ [mkIdeaDoc oid_D "Dark mode" None 0 10 10])
                      (comments store_ABC_commented)) /\
    Permutation l' (l ++ [mkIdeaJson (oid_str oid_D) "Dark mode" None 0 10 10 (Some 0)]).
Proof.
  assert (Hrefs : comments_refer_to_ideas store_ABC_commented).
  { repeat constructor. exists oid_B. split; [apply ObjectId_new_str|].
    vm_compute. by eexists. }
  split; [exact Hrefs|].
  destruct (Backend_list_ideas_after_create store_ABC_commented
              (Backend.mkIdeaCreate " Dark mode" None) 10 oid_D
              (mkIdeaJson (oid_str oid_D) "Dark mode" None 0 10 10 (Some 0))
              (mkStore (ideas store_ABC_commented
                        ++ [mkIdeaDoc oid_D "Dark mode" None 0 10 10])
                       (comments store_ABC_commented))
              Hrefs) as [_ H]; [vm_compute; reflexivity|].
  destruct (H Backend.week Backend.votes 20) as (l & l' & H1 & H2 & H3).
  exists l, l'. split; [exact H1|]. split; [exact H2|]. exact H3.
Defined.

Section SortNewest.
Context {A K : Type} (ltb : K -> K -> bool) (key : A -> K).

Lemma insert_sorted_greatest x l :
  Forall (fun y => ltb (key y) (key x) = true) l ->
  insert_sorted ltb key x l = l ++ [x].
Proof.
  induction 1 as [|y l Hy _ IH]; [done|]. cbn. by rewrite Hy, IH.
Qed.

(** An element whose key is above all others, appended last, comes out
    first. *)
Lemma sort_reverse_snoc_greatest x l :
  Forall (fun y => ltb (key y) (key x) = true) l ->
  sort_reverse ltb key (l ++ [x]) = x :: sort_reverse ltb key l.
Proof.
  intros Hl. unfold sort_reverse. rewrite rev_app_distr. cbn.
  rewrite insert_sorted_greatest.
  - by rewrite rev_app_distr.
  - eapply Permutation_Forall; [symmetry; apply sort_asc_perm|].
    eapply Permutation_Forall; [apply Permutation_rev|]. done.
Qed.
End SortNewest.

Lemma comments_of_snoc s cs c :
  comments_of s (cs ++ [c]) =
  comments_of s cs ++ (if String.eqb (c_idea_id c) s then [c] else []).
Proof. unfold comments_of. by rewrite List.filter_app. Qed.

(** A comment added and then the comments listed, in
    [src/backend/main.py]: the list for the identifier as the path spelt it
    is the one from before with the returned comment, which comes first
    when it is newer than all of them; the list for any other string is as
    before. *)
Theorem Backend_list_comments_after_add :
  forall idea_id payload now new_id st c st',
    run (Backend.add_comment_request idea_id payload now new_id) st = (Ok c, st') ->
    (exists l l',
        run (Backend.list_comments idea_id) st = (Ok l, st) /\
        run (Backend.list_comments idea_id) st' = (Ok l', st') /\
        Permutation l' (c :: l) /\
        (Forall (fun x => k_created_at x < now) l -> l' = c :: l)) /\
    (forall other, other <> idea_id ->
        (run (Backend.list_comments other) st').1 =
        (run (Backend.list_comments other) st).1).
Proof.
  intros idea_id payload now new_id st c st'.
  unfold Backend.add_comment_request.
  destruct (Backend.CommentCreate_errors payload); [|done].
  intros Hrun. apply Backend_add_comment_ok in Hrun as (-> & -> & _).
  set (doc := mkCommentDoc new_id idea_id (Backend.strip_opt (Backend.author payload))
                (strip (Backend.content payload)) now now).
  split.
  - eexists _, _. split; [reflexivity|]. split; [reflexivity|].
    cbn [comments]. rewrite comments_of_snoc. cbn [c_idea_id doc].
    rewrite String.eqb_refl. split.
    + etransitivity; [apply Permutation_map, sort_reverse_perm|].
      rewrite map_app. cbn [map]. symmetry.
      etransitivity; [|apply Permutation_cons_append].
      apply perm_skip. apply Permutation_map, sort_reverse_perm.
    + intros Hnew. rewrite sort_reverse_snoc_greatest; [done|].
      apply Forall_forall. intros y Hy.
      rewrite Forall_forall in Hnew.
      assert (Hin : Backend.serialize_comment y ∈
                    map Backend.serialize_comment
                        (sort_reverse Z.ltb c_created_at (comments_of idea_id (comments st)))).
      { apply list_elem_of_fmap. exists y. split; [done|].
        rewrite sort_reverse_perm. done. }
      specialize (Hnew _ Hin). cbn in Hnew. cbn. lia.
  - intros other Hne. cbn -[comments_of sort_reverse].
    rewrite comments_of_snoc. cbn [c_idea_id doc].
    rewrite (string_eqb_neq idea_id other); [|congruence].
    by rewrite app_nil_r.
Qed.

(** The comment on B, added at time 10 when B had none, is its list. *)
Lemma Backend_list_comments_after_add_witness :
  exists l l',
    run (Backend.list_comments (oid_str oid_B)) store_ABC = (Ok l, store_ABC) /\
    run (Backend.list_comments (oid_str oid_B)) store_ABC_commented
    = (Ok l', store_ABC_commented) /\
    Permutation l' (Backend.serialize_comment comment_on_B :: l) /\
    (Forall (fun x => k_created_at x < 10) l ->
     l' = Backend.serialize_comment comment_on_B :: l).
Proof.
  destruct (Backend_list_comments_after_add (oid_str oid_B)
              (Backend.mkCommentCreate (Some " ann") "nice ") 10 oid_N store_ABC
              (Backend.serialize_comment comment_on_B) store_ABC_commented)
    as [H _]; [vm_compute; reflexivity|].
  exact H.
Defined.

(** A comment sent, with a body that passes validation and a free comment
    identifier, under another spelling of the identifier of an idea of the
    database (its hexadecimal digits in upper case) is accepted and stored
    under that spelling: no listing of the ideas counts it, the idea's own
    comment list, asked for under the identifier as the service prints it,
    does not show it, and it is found under the spelling it was sent
    with. *)
Theorem Backend_comment_under_other_spelling :
  forall idea_id x d payload now new_id st,
    ObjectId_new idea_id = Some (Oid12 x) ->
    idea_id <> oid_str x ->
    find_idea x st = Some d ->
    Backend.CommentCreate_errors payload = [] ->
    existsb (fun c => oid_eqb (c_id c) new_id) (comments st) = false ->
    exists c st',
      run (Backend.add_comment_request idea_id payload now new_id) st = (Ok c, st') /\
      k_idea_id c = idea_id /\
      (forall range sort now',
          (run (Backend.list_ideas range sort now') st').1 =
          (run (Backend.list_ideas range sort now') st).1) /\
      (run (Backend.list_comments (oid_str x)) st').1 =
      (run (Backend.list_comments (oid_str x)) st).1 /\
      exists l, (run (Backend.list_comments idea_id) st').1 = Ok l /\ c ∈ l.
Proof.
  intros idea_id x d payload now new_id st Hx Hne Hd Hp Hfresh.
  pose proof (Backend_add_comment_run idea_id x d payload now new_id st Hx Hd Hfresh)
    as Hrun. cbn zeta in Hrun.
  set (doc := mkCommentDoc new_id idea_id (Backend.strip_opt (Backend.author payload))
                (strip (Backend.content payload)) now now) in *.
  exists (Backend.serialize_comment doc), (mkStore (ideas st) (comments st ++ [doc])).
  split; [|split; [done|split; [|split]]].
  - unfold Backend.add_comment_request. by rewrite Hp.
  - intros range sort now'. rewrite !Backend_list_ideas_run. cbn.
    do 2 f_equal. apply map_ext. intros d'.
    unfold idea_json. do 2 f_equal.
    rewrite comment_count_snoc. cbn.
    rewrite string_eqb_neq; [lia|].
    intros He. apply Hne. subst idea_id.
    rewrite ObjectId_new_str in Hx. by injection Hx as ->.
  - cbn -[comments_of sort_reverse]. rewrite comments_of_snoc. cbn [c_idea_id doc].
    rewrite (string_eqb_neq idea_id (oid_str x) Hne). by rewrite app_nil_r.
  - eexists. split; [reflexivity|].
    apply list_elem_of_fmap. exists doc. split; [done|].
    rewrite sort_reverse_perm. cbn [comments]. rewrite comments_of_snoc.
    cbn [c_idea_id doc]. rewrite String.eqb_refl.
    apply elem_of_app. right. apply list_elem_of_here.
Qed.

(** A comment sent to B under the upper-case spelling of its identifier:
    it is stored, and B's count and B's comment list stay empty. *)
Lemma Backend_comment_under_other_spelling_witness :
  exists c st',
    run (Backend.add_comment_request "65A000000000000000000002"
           (Backend.mkCommentCreate None "hello") 10 oid_N) store_ABC = (Ok c, st') /\
    k_idea_id c = "65A000000000000000000002" /\
    (run (Backend.list_ideas Backend.all Backend.comments 20) st').1 =
    (run (Backend.list_ideas Backend.all Backend.comments 20) store_ABC).1 /\
    (run (Backend.list_comments (oid_str oid_B)) st').1 = Ok [].
Proof.
  destruct (Backend_comment_under_other_spelling "65A000000000000000000002" oid_B
              idea_B (Backend.mkCommentCreate None "hello") 10 oid_N store_ABC)
    as (c & st' & Hrun & Hid & Hlist & Hcs & _).
  - vm_compute; reflexivity.
  - vm_compute; discriminate.
  - vm_compute; reflexivity.
  - reflexivity.
  - reflexivity.
  - exists c, st'. split; [exact Hrun|]. split; [exact Hid|].
    split; [apply Hlist|]. rewrite Hcs. reflexivity.
Defined.

(** ** Malformed identifiers and empty listings *)



(** However many ideas there are, [list_ideas] of either service issues at
    most two database commands, the [find] and one aggregation over the
    comments, and only the [find] when no idea is in the range, the answer
    being the empty list. *)
Theorem list_ideas_two_commands :
  forall now st st1,
    (forall range sort,
        is_Some (returned (step (step (Root.list_ideas range sort now) st).1 st1).1) /\
        (List.filter (in_range (Root.since range now)) (ideas st) = [] ->
         step (Root.list_ideas range sort now) st = (Ret (Ok []), st))) /\
    (forall range sort,
        is_Some (returned (step (step (Backend.list_ideas range sort now) st).1 st1).1) /\
        (List.filter (in_range (Backend.since range now)) (ideas st) = [] ->
         step (Backend.list_ideas range sort now) st = (Ret (Ok []), st))).
Proof.
  intros now st st1. split; intros range sort.
  - unfold Root.list_ideas. cbn.
    destruct (List.filter _ (ideas st)) as [|d l]; cbn.
    + split; [by eexists|]. intros _. unfold Root.sort_enriched.
      by destruct (String.eqb sort "comments").
    + split; [by eexists|done].
  - unfold Backend.list_ideas. cbn.
    destruct (List.filter _ (ideas st)) as [|d l]; cbn.
    + split; [by eexists|]. intros _. by destruct sort.
    + split; [by eexists|done].
Qed.

(** No idea of A, B and C was created in the week before time
    1000000000. *)
Lemma list_ideas_two_commands_witness :
  step (Backend.list_ideas Backend.week Backend.votes 1000000000) store_ABC
  = (Ret (Ok []), store_ABC).
Proof.
  destruct (list_ideas_two_commands 1000000000 store_ABC store_ABC) as [_ H].
  destruct (H Backend.week Backend.votes) as [_ H'].
  apply H'. vm_compute; reflexivity.
Defined.

(** ** Votes are never negative *)

Lemma find_one_and_update_nonneg oid now l :
  Forall (fun d => 0 <= i_votes d) l ->
  Forall (fun d => 0 <= i_votes d) (find_one_and_update oid now l).2.
Proof.
  induction 1 as [|d l Hd Hl IH]; cbn; [constructor|].
  destruct (oid_eqb (i_id d) oid); cbn.
  - constructor; [cbn; lia|done].
  - destruct (find_one_and_update oid now l). cbn in *. by constructor.
Qed.

(** Ideas are created with the 0 votes that [Idea] of [src/schemas.py]
    allows ([ge=0]) and only ever upvoted: starting from the empty
    database, no request of either service leaves an idea with a negative
    number of votes, and no listing shows one. *)
Theorem votes_stay_nonneg :
  forall st,
    votes_nonneg (mkStore [] []) /\
    (forall title description, RootSchemas.Idea_errors title description 0 = []) /\
    (votes_nonneg st ->
     (forall payload now new_id,
         votes_nonneg (run (Root.create_idea payload now new_id) st).2) /\
     (forall payload now new_id,
         votes_nonneg (run (Backend.create_idea_request payload now new_id) st).2) /\
     (forall idea_id now, votes_nonneg (run (Root.upvote_idea idea_id now) st).2) /\
     (forall idea_id now, votes_nonneg (run (Backend.upvote_idea idea_id now) st).2) /\
     (forall idea_id payload now new_id,
         votes_nonneg (run (Root.add_comment idea_id payload now new_id) st).2) /\
     (forall idea_id payload now new_id,
         votes_nonneg (run (Backend.add_comment_request idea_id payload now new_id) st).2) /\
     (forall range sort now, exists l,
         run (Backend.list_ideas range sort now) st = (Ok l, st) /\
         Forall (fun j => 0 <= j_votes j) l) /\
     (forall range sort now, exists l,
         run (Root.list_ideas range sort now) st = (Ok l, st) /\
         Forall (fun j => 0 <= j_votes j) l)).
Proof.
  intros st. split; [constructor|]. split; [done|]. intros Hv.
  assert (Hlist : forall keep,
             Forall (fun j => 0 <= j_votes j)
                    (map (idea_json (comments st)) (List.filter keep (ideas st)))).
  { intros keep. apply Forall_forall. intros j Hj.
    apply list_elem_of_fmap in Hj as (d & -> & Hd).
    apply list_elem_of_In, filter_In in Hd as [Hd _]. apply list_elem_of_In in Hd.
    unfold votes_nonneg in Hv. rewrite Forall_forall in Hv. by apply Hv. }
  split; [|split; [|split; [|split; [|split; [|split; [|split]]]]]].
  - intros payload now new_id. rewrite Root_create_idea_run.
    destruct (existsb _ (ideas st)); [done|].
    apply Forall_app. split; [done|]. by constructor.
  - intros payload now new_id. unfold Backend.create_idea_request.
    destruct (Backend.IdeaCreate_errors payload); [|done].
    rewrite Backend_create_idea_run.
    destruct (existsb _ (ideas st)); [done|].
    apply Forall_app. split; [done|]. by constructor.
  - intros idea_id now. destruct (ObjectId_new idea_id) as [[oid|hex]|] eqn:Ho.
    + rewrite (proj1 (upvote_store st idea_id oid now Ho)).
      by apply find_one_and_update_nonneg.
    + unfold Root.upvote_idea. by rewrite Ho.
    + unfold Root.upvote_idea. by rewrite Ho.
  - intros idea_id now. destruct (ObjectId_new idea_id) as [[oid|hex]|] eqn:Ho.
    + rewrite (proj2 (upvote_store st idea_id oid now Ho)).
      by apply find_one_and_update_nonneg.
    + unfold Backend.upvote_idea, Backend.PyObjectId_validate. by rewrite Ho.
    + unfold Backend.upvote_idea, Backend.PyObjectId_validate. by rewrite Ho.
  - intros idea_id payload now new_id.
    destruct (run (Root.add_comment idea_id payload now new_id) st) as [r st'] eqn:E.
    destruct r as [c| | |].
    + by apply Root_add_comment_ok in E as (-> & _ & _).
    + by rewrite (proj1 (add_comment_failure_keeps_store st idea_id now new_id) _ _ _ E).
    + by rewrite (proj1 (add_comment_failure_keeps_store st idea_id now new_id) _ _ _ E).
    + by rewrite (proj1 (add_comment_failure_keeps_store st idea_id now new_id) _ _ _ E).
  - intros idea_id payload now new_id. unfold Backend.add_comment_request.
    destruct (Backend.CommentCreate_errors payload); [|done].
    destruct (run (Backend.add_comment idea_id payload now new_id) st) as [r st'] eqn:E.
    destruct r as [c| | |].
    + by apply Backend_add_comment_ok in E as (-> & _ & _).
    + by rewrite (proj2 (add_comment_failure_keeps_store st idea_id now new_id) _ _ _ E).
    + by rewrite (proj2 (add_comment_failure_keeps_store st idea_id now new_id) _ _ _ E).
    + by rewrite (proj2 (add_comment_failure_keeps_store st idea_id now new_id) _ _ _ E).
  - intros range sort now.
    destruct (Backend_list_ideas_perm range sort now st) as (l & Hl & Hp).
    exists l. split; [done|]. rewrite Hp. apply Hlist.
  - intros range sort now.
    destruct (Root_list_ideas_perm range sort now st) as (l & Hl & Hp).
    exists l. split; [done|]. rewrite Hp. apply Hlist.
Qed.

(** The ideas A, B and C have 5, 5 and 3 votes; so after an upvote of B. *)
Lemma votes_stay_nonneg_witness :
  votes_nonneg store_ABC /\
  votes_nonneg (run (Backend.upvote_idea (oid_str oid_B) 20) store_ABC).2.
Proof.
  assert (H0 : votes_nonneg store_ABC) by (repeat constructor; cbn; lia).
  split; [exact H0|].
  destruct (votes_stay_nonneg store_ABC) as (_ & _ & H).
  destruct (H H0) as (_ & _ & _ & Hup & _).
  apply Hup.
Defined.

(** ** [src/backend/database.py] *)

Section DatabaseFacts.
Context (str_datetime : Z -> string).
Local Abbreviation py_str := (Database.py_str str_datetime).
Local Abbreviation serialize_dict := (Database.serialize_dict str_datetime).
Local Abbreviation _serialize := (Database._serialize str_datetime).
Local Abbreviation create_document := (Database.create_document str_datetime).
Local Abbreviation get_documents := (Database.get_documents str_datetime).

Lemma doc_matches_id (d : Database.Doc) (v : Database.Value) :
  Database.doc_matches {["_id" := v]} d = Database.field_matches d ("_id", v).
Proof.
  unfold Database.doc_matches. rewrite map_to_list_singleton. cbn.
  by rewrite andb_true_r.
Qed.

Lemma doc_matches_empty (d : Database.Doc) : Database.doc_matches ∅ d = true.
Proof. unfold Database.doc_matches. by rewrite map_to_list_empty. Qed.

Lemma find_app_fresh {A} (f : A -> bool) (l : list A) (x : A) :
  existsb f l = false -> f x = true -> List.find f (l ++ [x]) = Some x.
Proof.
  induction l as [|a l IH]; cbn; [by intros _ ->|].
  intros H Hx. apply orb_false_elim in H as [-> H]. by apply IH.
Qed.

Lemma filter_none {A} (f : A -> bool) (l : list A) :
  existsb f l = false -> List.filter f l = [].
Proof.
  induction l as [|a l IH]; cbn; [done|].
  intros H. apply orb_false_elim in H as [-> H]. by apply IH.
Qed.

Lemma serialize_dict_no_id (d : Database.Doc) : serialize_dict d !! "_id" = None.
Proof.
  unfold Database.serialize_dict. destruct (d !! "_id") eqn:E; [|done].
  rewrite lookup_insert_ne by done. apply lookup_delete_eq.
Qed.

(** Serializing what is serialized changes nothing. *)
Lemma serialize_dict_idemp (d : Database.Doc) :
  serialize_dict (serialize_dict d) = serialize_dict d.
Proof.
  unfold Database.serialize_dict at 1. by rewrite serialize_dict_no_id.
Qed.

(** A successful [create_document] has found the identifier free and
    appended the stamped document, which it returns serialized. *)
Lemma create_document_ok collection_name data now new_id db r db' :
  create_document collection_name data now new_id db = (Ok r, db') ->
  let inserted_id := default (Database.VOid new_id) (data !! "_id") in
  let stored := <["_id" := inserted_id]>
                  (<["updated_at" := Database.VDate now]>
                     (<["created_at" := Database.VDate now]> data)) in
  existsb (Database.doc_matches {["_id" := inserted_id]})
          (Database.collection db collection_name) = false /\
  db' = <[collection_name := Database.collection db collection_name ++ [stored]]> db /\
  r = Some (serialize_dict stored).
Proof.
  intros Hrun inserted_id stored. revert Hrun.
  unfold Database.create_document, Database.insert_one.
  rewrite !lookup_insert_ne by done. fold inserted_id. fold stored.
  destruct (existsb _ (Database.collection db collection_name)) eqn:Ex; [done|].
  intros [= <- <-]. split; [done|]. split; [done|].
  unfold Database.collection at 1. rewrite lookup_insert_eq. cbn [default from_option id].
  assert (Hm : Database.doc_matches {["_id" := inserted_id]} stored = true).
  { rewrite doc_matches_id. unfold Database.field_matches, stored. cbn.
    rewrite lookup_insert_eq. by apply bool_decide_eq_true. }
  by rewrite (find_app_fresh _ _ stored Ex Hm).
Qed.

Lemma create_document_failed collection_name data now new_id db :
  is_ok (create_document collection_name data now new_id db).1 = false ->
  (create_document collection_name data now new_id db).2 = db /\
  existsb (Database.doc_matches
             {["_id" := default (Database.VOid new_id) (data !! "_id")]})
          (Database.collection db collection_name) = true.
Proof.
  unfold Database.create_document, Database.insert_one.
  rewrite !lookup_insert_ne by done.
  by destruct (existsb _ (Database.collection db collection_name)).
Qed.

(** [create_document] fails only on a taken identifier, and then writes
    nothing.  When it succeeds it has appended one document to the named
    collection and touched no other; the record it returns has no ["_id"]
    but, as ["id"], the string of the identifier, whatever ["id"] the data
    had; its ["created_at"] and ["updated_at"] are both now, whatever the
    data had under these names; every other field is the data's. *)
Theorem create_document_outcome :
  forall collection_name data now new_id db,
    let inserted_id := default (Database.VOid new_id) (data !! "_id") in
    let res := create_document collection_name data now new_id db in
    (is_ok res.1 = false ->
       res.2 = db /\
       existsb (Database.doc_matches {["_id" := inserted_id]})
               (Database.collection db collection_name) = true) /\
    (forall r, res.1 = Ok r ->
       exists stored record,
         r = Some record /\
         Database.collection res.2 collection_name =
           Database.collection db collection_name ++ [stored] /\
         (forall other, other <> collection_name ->
            Database.collection res.2 other = Database.collection db other) /\
         stored !! "_id" = Some inserted_id /\
         record = serialize_dict stored /\
         record !! "_id" = None /\
         record !! "id" = Some (Database.VStr (py_str inserted_id)) /\
         record !! "created_at" = Some (Database.VDate now) /\
         record !! "updated_at" = Some (Database.VDate now) /\
         (forall k, k <> "_id" -> k <> "id" -> k <> "created_at" -> k <> "updated_at" ->
            record !! k = data !! k)).
Proof.
  intros collection_name data now new_id db inserted_id res.
  split; [apply create_document_failed|].
  intros r Hr. subst res.
  destruct (create_document collection_name data now new_id db) as [r0 db'] eqn:E.
  cbn in Hr. subst r0.
  destruct (create_document_ok _ _ _ _ _ _ _ E) as (_ & -> & ->).
  fold inserted_id.
  set (payload := <["updated_at" := Database.VDate now]>
                    (<["created_at" := Database.VDate now]> data)).
  set (stored := <["_id" := inserted_id]> payload).
  exists stored, (serialize_dict stored).
  assert (Hsid : stored !! "_id" = Some inserted_id)
    by (unfold stored; by rewrite lookup_insert_eq).
  split; [done|]. split.
  { cbn [snd]. unfold Database.collection at 1. by rewrite lookup_insert_eq. }
  split.
  { intros other Hne. cbn [snd]. unfold Database.collection.
    by rewrite lookup_insert_ne. }
  split; [done|]. split; [done|]. split; [apply serialize_dict_no_id|].
  unfold Database.serialize_dict. rewrite Hsid.
  split; [by rewrite lookup_insert_eq|].
  split; [|split].
  + rewrite lookup_insert_ne, lookup_delete_ne by done.
    unfold stored, payload.
    by rewrite lookup_insert_ne, lookup_insert_ne, lookup_insert_eq.
  + rewrite lookup_insert_ne, lookup_delete_ne by done.
    unfold stored, payload.
    by rewrite lookup_insert_ne, lookup_insert_eq.
  + intros k H1 H2 H3 H4.
    rewrite lookup_insert_ne, lookup_delete_ne by done.
    unfold stored, payload. by rewrite !lookup_insert_ne.
Qed.

(** What [create_document] returns is what [get_documents] then gives:
    the listing of the collection, without query and limit, is the one from
    before followed by the returned record, and the query by the new
    identifier gives that record alone, under any limit. *)
Theorem create_document_then_get_documents :
  forall collection_name data now new_id db record db',
    create_document collection_name data now new_id db = (Ok (Some record), db') ->
    get_documents collection_name None None db' =
      get_documents collection_name None None db ++ [record] /\
    (forall limit,
        get_documents collection_name
          (Some {["_id" := default (Database.VOid new_id) (data !! "_id")]}) limit db'
        = [record]) /\
    (forall other query limit, other <> collection_name ->
        get_documents other query limit db' = get_documents other query limit db).
Proof.
  intros collection_name data now new_id db record db' Hrun.
  destruct (create_document_ok _ _ _ _ _ _ _ Hrun) as (Hex & -> & Hrec).
  set (stored := <["_id" := default (Database.VOid new_id) (data !! "_id")]>
                   (<["updated_at" := Database.VDate now]>
                      (<["created_at" := Database.VDate now]> data))) in *.
  injection Hrec as Hrec.
  assert (Hsid : stored !! "_id" = Some (default (Database.VOid new_id) (data !! "_id")))
    by (unfold stored; by rewrite lookup_insert_eq).
  assert (Hcol : Database.collection
                   (<[collection_name := Database.collection db collection_name
                                         ++ [stored]]> db) collection_name
                 = Database.collection db collection_name ++ [stored]).
  { unfold Database.collection at 1. by rewrite lookup_insert_eq. }
  assert (Hother : forall other, other <> collection_name ->
             Database.collection
               (<[collection_name := Database.collection db collection_name
                                     ++ [stored]]> db) other
             = Database.collection db other).
  { intros other Hne. unfold Database.collection. by rewrite lookup_insert_ne. }
  assert (Hm : Database.doc_matches
                 {["_id" := default (Database.VOid new_id) (data !! "_id")]} stored = true).
  { rewrite doc_matches_id. unfold Database.field_matches. cbn.
    rewrite Hsid. by apply bool_decide_eq_true. }
  split; [|split].
  - unfold Database.get_documents. cbn [default]. rewrite Hcol.
    rewrite List.filter_app, map_app. cbn [List.filter].
    rewrite doc_matches_empty. cbn [map]. by rewrite Hrec.
  - intros limit.
    set (q := {["_id" := default (Database.VOid new_id) (data !! "_id")]}) in *.
    assert (Hf : List.filter (Database.doc_matches q)
                   (Database.collection db collection_name ++ [stored]) = [stored]).
    { rewrite List.filter_app, (filter_none _ _ Hex). cbn [List.filter app].
      by rewrite Hm. }
    unfold Database.get_documents.
    change (default ∅ (Some q)) with q. rewrite Hcol, Hf.
    destruct limit as [n|]; [|by rewrite Hrec].
    destruct (n =? 0)%N eqn:En; [by rewrite Hrec|].
    apply N.eqb_neq in En.
    rewrite take_ge by (cbn [length]; lia). by rewrite Hrec.
  - intros other query limit Hne. unfold Database.get_documents.
    by rewrite (Hother other Hne).
Qed.

(** [get_documents] without a limit, or with the limit 0, gives every
    document of the collection that matches, in stored order; a limit [n]
    above 0 gives the first [n] of them; no query and the empty query
    select everything.  No returned document has an ["_id"], and
    serializing one again changes nothing. *)
Theorem get_documents_limit :
  forall collection_name query limit db,
    get_documents collection_name None limit db =
      get_documents collection_name (Some ∅) limit db /\
    get_documents collection_name query (Some 0%N) db =
      get_documents collection_name query None db /\
    length (get_documents collection_name None None db) =
      length (Database.collection db collection_name) /\
    (forall n, (0 < n)%N ->
        get_documents collection_name query (Some n) db =
          take (N.to_nat n) (get_documents collection_name query None db) /\
        (length (get_documents collection_name query (Some n) db) <= N.to_nat n)%nat) /\
    Forall (fun r => r !! "_id" = None /\ serialize_dict r = r)
           (get_documents collection_name query limit db).
Proof.
  intros collection_name query limit db.
  split; [done|]. split; [done|]. split; [|split].
  - unfold Database.get_documents. cbn [default].
    rewrite length_map. f_equal.
    induction (Database.collection db collection_name) as [|d l IH]; [done|].
    cbn [List.filter]. rewrite doc_matches_empty. cbn. by rewrite IH.
  - intros n Hn. unfold Database.get_documents.
    assert ((n =? 0)%N = false) as -> by (apply N.eqb_neq; lia).
    split.
    + by rewrite fmap_take.
    + rewrite length_map, length_take. lia.
  - unfold Database.get_documents. apply Forall_forall. intros r Hr.
    apply list_elem_of_fmap in Hr as (d & -> & _).
    split; [apply serialize_dict_no_id|apply serialize_dict_idemp].
Qed.
End DatabaseFacts.

(** Creating "Dark mode" in the empty database: the caller's ["id"] and
    ["created_at"] are replaced, and the same data under the same
    identifier is then refused. *)
Lemma create_document_outcome_witness :
  Database.create_document (fun _ => "") "idea" data_dark_mode 10 oid_A ∅
  = (Ok (Some record_dark_mode), db_dark_mode) /\
  (Database.create_document (fun _ => "") "idea" data_dark_mode 11 oid_A db_dark_mode).2
  = db_dark_mode.
Proof.
  split; [vm_compute; reflexivity|].
  apply (create_document_outcome (fun _ => "") "idea" data_dark_mode 11 oid_A db_dark_mode).
  vm_compute; reflexivity.
Defined.

(** The record of "Dark mode" is the whole listing of its collection. *)
Lemma create_document_then_get_documents_witness :
  Database.get_documents (fun _ => "") "idea" None None db_dark_mode
  = Database.get_documents (fun _ => "") "idea" None None ∅ ++ [record_dark_mode].
Proof.
  apply (create_document_then_get_documents (fun _ => "") "idea" data_dark_mode 10 oid_A
           ∅ record_dark_mode db_dark_mode).
  vm_compute; reflexivity.
Defined.

(** ** Answers that agree, ranges that nest *)

Lemma find_some_elem {A} (f : A -> bool) (l : list A) (x : A) :
  List.find f l = Some x -> x ∈ l /\ f x = true.
Proof.
  intros H. apply find_some in H as [H1 H2]. split; [by apply list_elem_of_In|done].
Qed.

(** The record that [upvote_idea] of [src/backend/main.py] returns, the
    identifier being spelt as the service prints it, is the record of that
    idea in the next listing of all ideas: same votes, same
    [comments_count]. *)
Theorem Backend_upvote_answer_is_listed :
  forall st oid d now,
    find_idea oid st = Some d ->
    exists j st',
      run (Backend.upvote_idea (oid_str oid) now) st = (Ok j, st') /\
      j_votes j = i_votes d + 1 /\ j_updated_at j = now /\
      forall sort now', exists l,
        run (Backend.list_ideas Backend.all sort now') st' = (Ok l, st') /\ j ∈ l.
Proof.
  intros st oid d now Hd. unfold find_idea in Hd.
  destruct (find_one_and_update_some _ now _ _ Hd) as (l' & Hfou & Hf' & _).
  exists (Backend.serialize_id (inc_votes now d)
            (comment_count (oid_str oid) (comments st))),
         (mkStore l' (comments st)).
  split.
  { unfold Backend.upvote_idea, Backend.PyObjectId_validate.
    rewrite ObjectId_new_str. cbn. by rewrite Hfou. }
  split; [done|]. split; [done|].
  intros sort now'.
  destruct (Backend_list_ideas_perm Backend.all sort now' (mkStore l' (comments st)))
    as (l & Hl & Hp).
  exists l. split; [done|]. rewrite Hp.
  apply find_some_elem in Hf' as [Hin Heq].
  apply list_elem_of_fmap. exists (inc_votes now d). split.
  - apply oid_eqb_eq in Heq. cbn in Heq. subst oid. reflexivity.
  - cbn. apply list_elem_of_In, filter_In. split; [by apply list_elem_of_In|done].
Qed.

(** Upvoting B, which has one comment: the answer, six votes and one
    comment, is in the next listing. *)
Lemma Backend_upvote_answer_is_listed_witness :
  exists j st',
    run (Backend.upvote_idea (oid_str oid_B) 20) store_ABC_commented = (Ok j, st') /\
    j_votes j = i_votes idea_B + 1 /\ j_updated_at j = 20 /\
    forall sort now', exists l,
      run (Backend.list_ideas Backend.all sort now') st' = (Ok l, st') /\ j ∈ l.
Proof.
  apply (Backend_upvote_answer_is_listed store_ABC_commented oid_B idea_B 20).
  vm_compute; reflexivity.
Defined.

Lemma filter_in_range_weaker (t t' : Z) (l : list IdeaDoc) (d : IdeaDoc) :
  t' <= t ->
  d ∈ List.filter (in_range (Some t)) l -> d ∈ List.filter (in_range (Some t')) l.
Proof.
  intros Hle Hd. apply list_elem_of_In, filter_In in Hd as [Hd Hk].
  apply list_elem_of_In, filter_In. split; [done|]. cbn in *. lia.
Qed.

(** In both services the ranges nest and the sort key only reorders: at
    one time of asking, every idea of the week's listing is in the
    month's, every idea of the month's is in the listing of all, and
    the listings by votes and by comments hold the same records. *)
Theorem list_ideas_ranges_nest :
  forall st now,
    (forall sort sort', exists lw lm la la',
        run (Root.list_ideas "week" sort now) st = (Ok lw, st) /\
        run (Root.list_ideas "month" sort now) st = (Ok lm, st) /\
        run (Root.list_ideas "all" sort now) st = (Ok la, st) /\
        run (Root.list_ideas "all" sort' now) st = (Ok la', st) /\
        lw ⊆ lm /\ lm ⊆ la /\ Permutation la la') /\
    (forall sort sort', exists lw lm la la',
        run (Backend.list_ideas Backend.week sort now) st = (Ok lw, st) /\
        run (Backend.list_ideas Backend.month sort now) st = (Ok lm, st) /\
        run (Backend.list_ideas Backend.all sort now) st = (Ok la, st) /\
        run (Backend.list_ideas Backend.all sort' now) st = (Ok la', st) /\
        lw ⊆ lm /\ lm ⊆ la /\ Permutation la la').
Proof.
  intros st now.
  assert (Hwm : forall lw lm,
             listing st (created_since (now - timedelta_days 7)) lw ->
             listing st (created_since (now - timedelta_days 30)) lm -> lw ⊆ lm).
  { intros lw lm Hw Hm j Hj. unfold listing in *. rewrite Hw in Hj. rewrite Hm.
    apply list_elem_of_fmap in Hj as (d & -> & Hd).
    apply list_elem_of_fmap. exists d. split; [done|].
    revert Hd. apply filter_in_range_weaker. unfold timedelta_days. lia. }
  assert (Hma : forall lm la,
             listing st (created_since (now - timedelta_days 30)) lm ->
             listing st (fun _ => true) la -> lm ⊆ la).
  { intros lm la Hm Ha j Hj. unfold listing in *. rewrite Hm in Hj. rewrite Ha.
    apply list_elem_of_fmap in Hj as (d & -> & Hd).
    apply list_elem_of_fmap. exists d. split; [done|].
    apply list_elem_of_In, filter_In in Hd as [Hd _].
    apply list_elem_of_In, filter_In. split; done. }
  split; intros sort sort'.
  - destruct (Root_list_ideas_perm "week" sort now st) as (lw & Hlw & Hpw).
    destruct (Root_list_ideas_perm "month" sort now st) as (lm & Hlm & Hpm).
    destruct (Root_list_ideas_perm "all" sort now st) as (la & Hla & Hpa).
    destruct (Root_list_ideas_perm "all" sort' now st) as (la' & Hla' & Hpa').
    exists lw, lm, la, la'. repeat (split; [done|]).
    split; [by apply Hwm|]. split; [by apply Hma|].
    by rewrite Hpa, Hpa'.
  - destruct (Backend_list_ideas_perm Backend.week sort now st) as (lw & Hlw & Hpw).
    destruct (Backend_list_ideas_perm Backend.month sort now st) as (lm & Hlm & Hpm).
    destruct (Backend_list_ideas_perm Backend.all sort now st) as (la & Hla & Hpa).
    destruct (Backend_list_ideas_perm Backend.all sort' now st) as (la' & Hla' & Hpa').
    exists lw, lm, la, la'. repeat (split; [done|]).
    split; [by apply Hwm|]. split; [by apply Hma|].
    by rewrite Hpa, Hpa'.
Qed.

(** [list_ideas] of [src/main.py] takes any strings: a range that is
    neither "week" nor "month" is read as "all", and a sort that is not
    "comments" is read as "votes". *)
Theorem Root_list_ideas_unknown_parameters :
  forall range sort now,
    range <> "week" -> range <> "month" -> sort <> "comments" ->
    Root.list_ideas range sort now = Root.list_ideas "all" "votes" now /\
    forall st, exists l,
      run (Root.list_ideas range sort now) st = (Ok l, st) /\
      listing st (fun _ => true) l /\
      StronglySorted (fun x y => j_votes y <= j_votes x) l.
Proof.
  intros range sort now Hw Hm Hs.
  assert (Heq : Root.list_ideas range sort now = Root.list_ideas "all" "votes" now).
  { unfold Root.list_ideas, Root.since, Root.sort_enriched.
    by rewrite (string_eqb_neq _ _ Hw), (string_eqb_neq _ _ Hm), (string_eqb_neq _ _ Hs). }
  split; [exact Heq|]. intros st. rewrite Heq.
  destruct (Root_list_ideas_perm "all" "votes" now st) as (l & Hl & Hp).
  exists l. split; [done|]. split; [exact Hp|].
  rewrite Root_list_ideas_run in Hl. injection Hl as <-.
  unfold Root.sort_enriched. cbn.
  eapply StronglySorted_mono;
    [|apply (sort_reverse_sorted Z.ltb _ Z_ltb_asym Z_ltb_negtrans)].
  intros x y H. unfold desc in H. lia.
Qed.

(** The range "year" and the sort "newest" on A, B and C. *)
Lemma Root_list_ideas_unknown_parameters_witness :
  Root.list_ideas "year" "newest" 20 = Root.list_ideas "all" "votes" 20.
Proof.
  apply (Root_list_ideas_unknown_parameters "year" "newest" 20); discriminate.
Defined.
